(** * blipt: a terminal scratchpad

    A shallow embedding of [blipt.py] (class [Scratchpad] and its session
    loop) together with the properties its specification states about it.

    Conventions of the embedding:
    - a Python [str] is a [string]; the text is taken to be ASCII, so
      [str.lower], [str.strip], [str.split] and [str.isdigit] are the ASCII
      restrictions of the Python methods;
    - a Python [int] is a [Z]; [len] is [Z.of_nat (length _)]; [int(s)]
      raises ValueError on more than 4300 digits, CPython's default limit;
    - the object's attributes live in the record [Scratchpad], everything
      outside the object (files, clipboard, terminal, keyboard) in the record
      [World]; methods are computations in the state-and-exception monad [M];
    - what a call cannot decide by itself (the wall clock, whether the
      history file can be opened, whether pyperclip works) is handed to it
      in an [Env];
    - [print_colored], [show_status] and [show_error] append an [Event] to the
      terminal transcript; colours, pictograms, ruled lines and [time.sleep]
      are not recorded. *)

From Stdlib Require Import ZArith Ascii DecimalString.
From Stdlib Require String.
From stdpp Require Import gmap strings list sorting.

Local Open Scope Z_scope.

(** ** Exceptions *)

(** Exceptions that the modelled code can let escape. *)
Inductive exn := IndexError | EOFError | KeyboardInterrupt | OSError | ValueError.

(** A computation returns a value or raises. *)
Inductive result (A : Type) :=
| Return (a : A)
| Raise (e : exn).
Arguments Return {A} a.
Arguments Raise {A} e.

(** ** Python built-ins on text *)

Module Py.

Definition nl : string := String (ascii_of_nat 10) "".

(** [len(s)] *)
Definition len (s : string) : Z := Z.of_nat (String.length s).

(** Truth value of a string: [not s] holds exactly for the empty string. *)
Definition truthy (s : string) : bool :=
  match s with
  | EmptyString => false
  | String _ _ => true
  end.

(** [c.isspace()] on ASCII: TAB, LF, VT, FF, CR, FS, GS, RS, US, space. *)
Definition isspace (c : ascii) : bool :=
  let n := nat_of_ascii c in
  ((9 <=? n)%nat && (n <=? 13)%nat) || ((28 <=? n)%nat && (n <=? 32)%nat).

Definition isdigit_char (c : ascii) : bool :=
  let n := nat_of_ascii c in (48 <=? n)%nat && (n <=? 57)%nat.

Definition lower_char (c : ascii) : ascii :=
  let n := nat_of_ascii c in
  if (65 <=? n)%nat && (n <=? 90)%nat then ascii_of_nat (n + 32) else c.

(** [s.lower()] *)
Fixpoint lower (s : string) : string :=
  match s with
  | EmptyString => EmptyString
  | String c s' => String (lower_char c) (lower s')
  end.

(** [s.lstrip()], [s.rstrip()], [s.strip()] *)
Fixpoint lstrip (s : string) : string :=
  match s with
  | EmptyString => EmptyString
  | String c s' => if isspace c then lstrip s' else s
  end.

Fixpoint rstrip (s : string) : string :=
  match s with
  | EmptyString => EmptyString
  | String c s' =>
      match rstrip s' with
      | EmptyString => if isspace c then EmptyString else String c EmptyString
      | r => String c r
      end
  end.

Definition strip (s : string) : string := lstrip (rstrip s).

(** [s.startswith(p)] *)
Fixpoint startswith (p s : string) : bool :=
  match p, s with
  | EmptyString, _ => true
  | String a p', String b s' => if decide (a = b) then startswith p' s' else false
  | String _ _, EmptyString => false
  end.

(** [needle in hay] *)
Fixpoint contains (needle hay : string) : bool :=
  startswith needle hay ||
  match hay with
  | EmptyString => false
  | String _ hay' => contains needle hay'
  end.

(** [s[n:]] and [s[:n]] for [n >= 0] *)
Fixpoint drop (n : nat) (s : string) : string :=
  match n, s with
  | O, _ => s
  | S n', String _ s' => drop n' s'
  | S _, EmptyString => EmptyString
  end.

Fixpoint take (n : nat) (s : string) : string :=
  match n, s with
  | S n', String c s' => String c (take n' s')
  | _, _ => EmptyString
  end.

(** [s.isdigit()]: at least one character, all of them digits. *)
Fixpoint all_digits (s : string) : bool :=
  match s with
  | EmptyString => true
  | String c s' => isdigit_char c && all_digits s'
  end.

Definition isdigit (s : string) : bool := truthy s && all_digits s.

(** The value of a string of digits, read from the left. *)
Fixpoint int_from (acc : Z) (s : string) : Z :=
  match s with
  | EmptyString => acc
  | String c s' => int_from (10 * acc + (Z.of_nat (nat_of_ascii c) - 48)) s'
  end.

(** CPython's default limit on the digits of an integer string conversion
    ([sys.int_info.default_max_str_digits]). *)
Definition max_str_digits : Z := 4300.

(** [int(s)] on a string of digits: its value, or ValueError when the string
    has more than [max_str_digits] digits (leading zeros count). *)
Definition int (s : string) : result Z :=
  if max_str_digits <? len s then Raise ValueError else Return (int_from 0 s).

(** [str(n)] as an f-string renders an integer. *)
Definition str (n : Z) : string := NilZero.string_of_int (Z.to_int n).

(** [f"{n:2d}"]: right-aligned in a field of width two. *)
Definition fmt_2d (n : Z) : string :=
  let s := str n in if len s <? 2 then " " +:+ s else s.

(** [sep.join(parts)] *)
Fixpoint join (sep : string) (parts : list string) : string :=
  match parts with
  | [] => ""
  | [p] => p
  | p :: rest => p +:+ sep +:+ join sep rest
  end.

(** [enumerate(l, start)] *)
Fixpoint enumerate {A} (start : Z) (l : list A) : list (Z * A) :=
  match l with
  | [] => []
  | x :: l' => (start, x) :: enumerate (start + 1) l'
  end.

(** [s.replace(old, new)] for a non-empty [old]: occurrences are replaced
    left to right without overlap; [skip] counts the characters of a
    replaced occurrence still to be passed over. *)
Fixpoint replace_from (old new : string) (skip : nat) (s : string) : string :=
  match s with
  | EmptyString => EmptyString
  | String c s' =>
      match skip with
      | S k => replace_from old new k s'
      | O =>
          if startswith old s
          then new +:+ replace_from old new (String.length old - 1) s'
          else String c (replace_from old new O s')
      end
  end.

Definition replace (old new s : string) : string := replace_from old new O s.

(** [s.split(None, 1)]: leading whitespace is skipped, the first field runs
    to the next whitespace, and whatever follows the whitespace after it is
    the second field, kept as it is. *)
Fixpoint field (s : string) : string * string :=
  match s with
  | EmptyString => (EmptyString, EmptyString)
  | String c s' =>
      if isspace c then (EmptyString, s)
      else let '(w, r) := field s' in (String c w, r)
  end.

Definition split_first (s : string) : list string :=
  match lstrip s with
  | EmptyString => []
  | s1 =>
      let '(w, r) := field s1 in
      match lstrip r with
      | EmptyString => [w]
      | r' => [w; r']
      end
  end.

End Py.

(** ** The object, the world around it, and the monad of its methods *)

(** One entry of the terminal transcript. *)
Inductive Event :=
| Status (message : string)                    (* show_status(message) *)
| Error (message : string)                     (* show_error(message) *)
| Printed (text : string)                      (* print(text), print_colored(text, ...) *)
| Cleared                                      (* os.system("clear") *)
| Screen (shown : list string) (capacity : Z). (* redraw() *)

(** What the keyboard delivers to one [input()] call; an exhausted [stdin]
    is end of input. *)
Inductive Key := Line (text : string) | CtrlC.

Record Scratchpad := mkScratchpad {
  notes : list string;
  history_file : string;
  max_notes : Z;
  unsaved_notes : list string
}.

Record World := mkWorld {
  fs : gmap string string;      (* path -> file content *)
  clipboard : option string;    (* what pyperclip last stored *)
  stdin : list Key;
  out : list Event              (* oldest first *)
}.

(** [datetime.now()], fields within the ranges of a Python [datetime] and a
    four-digit year. *)
Record datetime := mkDatetime {
  year : nat; month : nat; day : nat;
  hour : nat; minute : nat; second : nat
}.

Record Env := mkEnv {
  HAS_CLIPBOARD : bool;              (* the module-level flag *)
  now : datetime;
  history_fault : option string;     (* [Some e]: opening the history file raises IOError(e) *)
  clipboard_fault : option string    (* [Some e]: pyperclip.copy raises Exception(e) *)
}.

Definition set_notes (ns : list string) (sp : Scratchpad) : Scratchpad :=
  mkScratchpad ns (history_file sp) (max_notes sp) (unsaved_notes sp).

Definition set_fs (f : gmap string string) (w : World) : World :=
  mkWorld f (clipboard w) (stdin w) (out w).

Definition set_clipboard (c : option string) (w : World) : World :=
  mkWorld (fs w) c (stdin w) (out w).

Definition set_stdin (k : list Key) (w : World) : World :=
  mkWorld (fs w) (clipboard w) k (out w).

Definition set_out (o : list Event) (w : World) : World :=
  mkWorld (fs w) (clipboard w) (stdin w) o.

Definition State : Type := Scratchpad * World.

Definition M (A : Type) : Type := State -> result A * State.

#[global] Instance M_ret : MRet M := λ A a st, (Return a, st).

#[global] Instance M_bind : MBind M := λ A B f m st,
  match m st with
  | (Return a, st') => f a st'
  | (Raise e, st') => (Raise e, st')
  end.

Definition raise {A} (e : exn) : M A := λ st, (Raise e, st).

(** [try: body  except (the exceptions on which h is defined): h e] *)
Definition try_except {A} (body : M A) (h : exn -> option (M A)) : M A := λ st,
  match body st with
  | (Return a, st') => (Return a, st')
  | (Raise e, st') =>
      match h e with
      | Some handler => handler st'
      | None => (Raise e, st')
      end
  end.

Definition get_self : M Scratchpad := λ st, (Return (fst st), st).
Definition get_world : M World := λ st, (Return (snd st), st).
Definition put_self (sp : Scratchpad) : M unit := λ st, (Return tt, (sp, snd st)).
Definition put_world (w : World) : M unit := λ st, (Return tt, (fst st, w)).

Definition emit (e : Event) : M unit :=
  w ← get_world; put_world (set_out (out w ++ [e]) w).

(** [input()]: the next line, without its line terminator. *)
Definition input : M string :=
  w ← get_world;
  match stdin w with
  | [] => raise EOFError
  | Line s :: rest => put_world (set_stdin rest w);; mret s
  | CtrlC :: rest => put_world (set_stdin rest w);; raise KeyboardInterrupt
  end.

(** ** Python lists *)

(** Position addressed by [l[i]]: a negative index counts from the end;
    [None] stands for IndexError. *)
Definition list_index {A} (l : list A) (i : Z) : option nat :=
  let n := Z.of_nat (length l) in
  let j := if i <? 0 then i + n else i in
  if (0 <=? j) && (j <? n) then Some (Z.to_nat j) else None.

(** [l[i]] *)
Definition getitem {A} (l : list A) (i : Z) : result A :=
  match list_index l i with
  | Some k => match l !! k with Some x => Return x | None => Raise IndexError end
  | None => Raise IndexError
  end.

(** [l.pop(i)]: the removed element and the list that remains. *)
Definition pop {A} (l : list A) (i : Z) : result (A * list A) :=
  match list_index l i with
  | Some k => match l !! k with Some x => Return (x, delete k l) | None => Raise IndexError end
  | None => Raise IndexError
  end.

Definition lift_result {A} (r : result A) : M A := λ st, (r, st).

(** ** The clock *)

Definition digit (n : nat) : ascii := ascii_of_nat (48 + n mod 10).

Definition pad2 (n : nat) : string :=
  String (digit (n / 10)) (String (digit n) "").

Definition pad4 (n : nat) : string :=
  String (digit (n / 1000)) (String (digit (n / 100)) (pad2 n)).

(** [d.strftime("%Y-%m-%d %H:%M:%S")] *)
Definition strftime (d : datetime) : string :=
  pad4 (year d) +:+ "-" +:+ pad2 (month d) +:+ "-" +:+ pad2 (day d) +:+ " " +:+
  pad2 (hour d) +:+ ":" +:+ pad2 (minute d) +:+ ":" +:+ pad2 (second d).



(** ** class Scratchpad *)

Definition header : string := "# Scratchpad History" +:+ Py.nl +:+ Py.nl.

(** The line that [log_to_history] writes for a note. *)
Definition history_line (d : datetime) (text : string) : string :=
  "- [" +:+ strftime d +:+ "] " +:+ text +:+ Py.nl.

(** [open(path, "a").write(data)]: the file is created when it is missing. *)
Definition append_file (path data : string) (f : gmap string string) : gmap string string :=
  <[path := default "" (f !! path) +:+ data]> f.

Definition show_status (message : string) : M unit := emit (Status message).

Definition show_error (message : string) : M unit := emit (Error message).

Definition init_history (env : Env) : M unit :=
  self ← get_self;
  w ← get_world;
  match fs w !! history_file self with
  | Some _ => mret tt
  | None =>
      match history_fault env with
      | Some _ => raise OSError
      | None => put_world (set_fs (<[history_file self := header]> (fs w)) w)
      end
  end.

Definition __init__ (env : Env) (history_file : string) (max_notes : Z) : M unit :=
  put_self (mkScratchpad [] history_file max_notes []);;
  init_history env.

Definition log_to_history (env : Env) (text : string) : M unit :=
  self ← get_self;
  w ← get_world;
  match history_fault env with
  | None => put_world (set_fs (append_file (history_file self) (history_line (now env) text) (fs w)) w)
  | Some e => show_error ("Failed to write to history: " +:+ e)
  end.

(** The full-screen repaint; only the fact that it happened, and for which
    notes, is recorded. *)
Definition redraw : M unit :=
  self ← get_self;
  emit (Screen (notes self) (max_notes self)).

Definition get_user_input : M string :=
  try_except
    (emit (Printed "> ");; line ← input; mret (Py.strip line))
    (λ e, match e with
          | EOFError | KeyboardInterrupt =>
              Some (emit (Printed (Py.nl +:+ "Goodbye!"));; mret "exit")
          | _ => None
          end).

Definition safe_clipboard_copy (env : Env) (text : string) : M bool :=
  if negb (HAS_CLIPBOARD env) then
    show_error "Clipboard not available - install pyperclip";;
    emit (Printed ("Text content: " +:+ text));;
    mret false
  else
    match clipboard_fault env with
    | None =>
        w ← get_world;
        put_world (set_clipboard (Some text) w);;
        mret true
    | Some e =>
        show_error ("Copy failed: " +:+ e);;
        emit (Printed ("Text content: " +:+ text));;
        mret false
    end.

Definition handle_add (env : Env) (text : string) : M unit :=
  if negb (Py.truthy text) then
    show_error "Cannot add empty text"
  else
    self ← get_self;
    (if Z.of_nat (length (notes self)) >=? max_notes self then
       '(_, rest) ← lift_result (pop (notes self) 0);
       put_self (set_notes rest self);;
       show_status ("Removed oldest note (limit: " +:+ Py.str (max_notes self) +:+ ")")
     else mret tt);;
    self ← get_self;
    put_self (set_notes (notes self ++ [text]) self);;
    log_to_history env text;;
    self ← get_self;
    show_status ("Added note #" +:+ Py.str (Z.of_nat (length (notes self)))).

Definition handle_copy (env : Env) (index : Z) : M unit :=
  self ← get_self;
  if (index <? 1) || (index >? Z.of_nat (length (notes self))) then
    show_error "Invalid note number"
  else
    note_text ← lift_result (getitem (notes self) (index - 1));
    copied ← safe_clipboard_copy env note_text;
    if copied : bool then show_status ("Copied note #" +:+ Py.str index) else mret tt.

(** The text that [handle_copy_all] builds:
    ["\n".join(f"{i+1}. {note}" for i, note in enumerate(self.notes))]. *)
Definition all_text (ns : list string) : string :=
  Py.join Py.nl (map (λ '(i, note), Py.str (i + 1) +:+ ". " +:+ note) (Py.enumerate 0 ns)).

Definition handle_copy_all (env : Env) : M unit :=
  self ← get_self;
  match notes self with
  | [] => show_error "Nothing to copy"
  | _ =>
      copied ← safe_clipboard_copy env (all_text (notes self));
      if copied : bool
      then show_status ("Copied all " +:+ Py.str (Z.of_nat (length (notes self))) +:+ " notes")
      else mret tt
  end.

(** [deleted_note[:30] + "..." if len(deleted_note) > 30 else deleted_note] *)
Definition preview (deleted_note : string) : string :=
  if Py.len deleted_note >? 30 then Py.take 30 deleted_note +:+ "..." else deleted_note.

Definition handle_delete (index : Z) : M unit :=
  self ← get_self;
  if (index <? 1) || (index >? Z.of_nat (length (notes self))) then
    show_error "Invalid note number"
  else
    '(deleted_note, rest) ← lift_result (pop (notes self) (index - 1));
    put_self (set_notes rest self);;
    show_status ("Deleted: '" +:+ preview deleted_note +:+ "'").

Definition handle_delete_all : M unit :=
  self ← get_self;
  match notes self with
  | [] => show_error "Nothing to delete"
  | _ =>
      let count := Z.of_nat (length (notes self)) in
      put_self (set_notes [] self);;
      show_status ("Deleted all " +:+ Py.str count +:+ " notes")
  end.

(** The loop of [handle_search] that collects [matches]. *)
Definition find_matches (query : string) (ns : list string) : list (Z * string) :=
  fold_left
    (λ matches '(i, note),
       if Py.contains (Py.lower query) (Py.lower note)
       then matches ++ [(i + 1, note)]
       else matches)
    (Py.enumerate 0 ns) [].

Fixpoint for_each {A} (l : list A) (body : A -> M unit) : M unit :=
  match l with
  | [] => mret tt
  | x :: l' => body x;; for_each l' body
  end.

Definition handle_search (query : string) : M unit :=
  if negb (Py.truthy query) then
    show_error "Please provide a search term"
  else
    self ← get_self;
    let matches := find_matches query (notes self) in
    match matches with
    | [] => show_error ("No notes found containing '" +:+ query +:+ "'")
    | _ =>
        emit Cleared;;
        emit (Printed ("Search results for '" +:+ query +:+ "':"));;
        for_each matches (λ '(index, note),
          let highlighted := Py.replace query ("[" +:+ query +:+ "]") note in
          emit (Printed ("   " +:+ Py.fmt_2d index +:+ ". " +:+ highlighted)));;
        emit (Printed ("Found " +:+ Py.str (Z.of_nat (length matches)) +:+
                       " match(es). Press Enter to continue..."));;
        _ ← input;
        mret tt
    end.

(** What [parse_command] returns: [(None, [])] or [(action, args)]. *)
Inductive parsed :=
| NoAction
| Action (action args : string).

Definition parse_command (command : string) : result parsed :=
  if negb (Py.truthy command) then Return NoAction
  else
    match Py.split_first command with
    | [] => Raise IndexError
    | [action] => Return (Action (Py.lower action) "")
    | action :: args :: _ => Return (Action (Py.lower action) args)
    end.

(** The help page; as for [redraw] only the fact is recorded, then the
    method waits for Enter. *)
Definition show_help : M unit :=
  emit Cleared;;
  emit (Printed "BLIPT HELP");;
  _ ← input;
  mret tt.

(** Whether the loop of [run] goes round again. *)
Inductive flow := Next | Break.

(** The [if]/[elif] chain in the body of the loop of [run]. *)
Definition run_command (env : Env) (command : string) : M flow :=
  if decide (Py.lower command = "exit") then mret Break
  else if decide (Py.lower command = "copy all") then handle_copy_all env;; mret Next
  else if decide (Py.lower command = "delete all") then handle_delete_all;; mret Next
  else if Py.startswith "add " command then
    let text := Py.strip (Py.drop 4 command) in
    handle_add env text;; mret Next
  else if Py.startswith "copy " command then
    let arg := Py.strip (Py.drop 5 command) in
    (if Py.isdigit arg then index ← lift_result (Py.int arg); handle_copy env index
     else show_error "Usage: copy <number>");;
    mret Next
  else if Py.startswith "delete " command then
    let arg := Py.strip (Py.drop 7 command) in
    (if Py.isdigit arg then index ← lift_result (Py.int arg); handle_delete index
     else show_error "Usage: delete <number>");;
    mret Next
  else if Py.startswith "search " command then
    let query := Py.strip (Py.drop 7 command) in
    handle_search query;; mret Next
  else if decide (Py.lower command ∈ ["help"; "?"]) then show_help;; mret Next
  else if Py.truthy command then
    show_error "Unknown command. Type 'help' for available commands";; mret Next
  else mret Next.

(** One turn of the loop of [run]: repaint, read a line, act on it. *)
Definition run_iteration (env : Env) : M flow :=
  redraw;;
  command ← get_user_input;
  run_command env command.

(** [run]: the loop, [envs k] being the surroundings during turn [k]. Every
    turn consumes input or ends the loop, so [fuel] beyond the length of
    [stdin] is never used up; [None] reports exhausted fuel. *)
Fixpoint run_loop (envs : nat -> Env) (k fuel : nat) : M (option unit) :=
  match fuel with
  | O => mret None
  | S fuel' =>
      f ← run_iteration (envs k);
      match f with
      | Break => mret (Some tt)
      | Next => run_loop envs (S k) fuel'
      end
  end.

Definition run (envs : nat -> Env) : M (option unit) :=
  emit (Printed "Welcome to Scratchpad! Type 'exit' to quit.");;
  w ← get_world;
  run_loop envs O (S (length (stdin w))).

(** ** Vocabulary of the statements *)

(** Only whitespace, or nothing at all. *)
Fixpoint blank (s : string) : bool :=
  match s with
  | EmptyString => true
  | String c s' => Py.isspace c && blank s'
  end.

Definition size (self : Scratchpad) : Z := Z.of_nat (length (notes self)).

(** The invariant of the note store. *)
Definition bounded (self : Scratchpad) : Prop := size self <= max_notes self.

(** The world after [log_to_history]. *)
Definition logged (env : Env) (path text : string) (w : World) : World :=
  match history_fault env with
  | None => set_fs (append_file path (history_line (now env) text) (fs w)) w
  | Some e => set_out (out w ++ [Error ("Failed to write to history: " +:+ e)]) w
  end.

(** The state in which [handle_add] ends once [self.notes] has become [ns]. *)
Definition added (env : Env) (text : string) (ns : list string) (self : Scratchpad) (w : World) : State :=
  let w1 := logged env (history_file self) text w in
  (set_notes ns self,
   set_out (out w1 ++ [Status ("Added note #" +:+ Py.str (Z.of_nat (length ns)))]) w1).

Definition eviction_notice (limit : Z) : Event :=
  Status ("Removed oldest note (limit: " +:+ Py.str limit +:+ ")").

Definition is_eviction_notice (e : Event) : bool :=
  match e with
  | Status m => Py.startswith "Removed oldest note" m
  | _ => false
  end.

(** How many eviction notices a transcript holds. *)
Definition evictions (o : list Event) : nat := length (filter is_eviction_notice o).

(** A run of [handle_add] calls, one after the other, as a caller makes them. *)
Definition add_all (adds : list (Env * string)) : M unit :=
  for_each adds (λ '(env, text), handle_add env text).

(** Surroundings and objects of the worked examples. *)
Definition noon : datetime := mkDatetime 2025 3 9 12 0 0.
Definition calm : Env := mkEnv true noon None None.
Definition no_disk : Env := mkEnv true noon (Some "disk full") None.
Definition no_clipboard : Env := mkEnv false noon None None.
Definition blank_world : World := mkWorld ∅ None [] [].
Definition pad_of (cap : Z) (ns : list string) : Scratchpad := mkScratchpad ns "Scratchmd.md" cap [].

(** What [safe_clipboard_copy] answers and the world it leaves. *)
Definition clipped (env : Env) (text : string) (w : World) : bool * World :=
  if HAS_CLIPBOARD env then
    match clipboard_fault env with
    | None => (true, set_clipboard (Some text) w)
    | Some e =>
        (false,
         set_out (out w ++ [Error ("Copy failed: " +:+ e); Printed ("Text content: " +:+ text)]) w)
    end
  else
    (false,
     set_out (out w ++ [Error "Clipboard not available - install pyperclip";
                        Printed ("Text content: " +:+ text)]) w).

(** The text reached the user: it is on the clipboard, or it was printed
    for copying by hand. *)
Definition delivered (text : string) (w : World) : Prop :=
  clipboard w = Some text ∨ Printed ("Text content: " +:+ text) ∈ out w.

(** What [handle_search] prints for one match, and for all its [matches]. *)
Definition match_line (query : string) (m : Z * string) : Event :=
  let '(index, note) := m in
  Printed ("   " +:+ Py.fmt_2d index +:+ ". " +:+
           Py.replace query ("[" +:+ query +:+ "]") note).

Definition search_report (query : string) (matches : list (Z * string)) : list Event :=
  [Cleared; Printed ("Search results for '" +:+ query +:+ "':")] ++
  map (match_line query) matches ++
  [Printed ("Found " +:+ Py.str (Z.of_nat (length matches)) +:+
            " match(es). Press Enter to continue...")].

(** The world after a successful or failed hand-over of [text] to the
    clipboard, with the confirmation [done] shown on success. *)
Definition copied (env : Env) (text done : string) (w : World) : World :=
  let c := clipped env text w in
  if c.1 then set_out (out c.2 ++ [Status done]) c.2 else c.2.

(** A note that [handle_search] reports for [query]. *)
Definition hit (query : string) (m : Z * string) : bool :=
  Py.contains (Py.lower query) (Py.lower m.2).

(** No whitespace anywhere in [s]. *)
Fixpoint solid (s : string) : bool :=
  match s with
  | EmptyString => true
  | String c s' => negb (Py.isspace c) && solid s'
  end.

(** What [run] shows for a line it does not recognise. *)
Definition unknown_command : Event :=
  Error "Unknown command. Type 'help' for available commands".

(** The state after [show_error message] and nothing else. *)
Definition refused (message : string) (st : State) : State :=
  (st.1, set_out (out st.2 ++ [Error message]) st.2).

(** The notes and the world after the eviction step of [handle_add]. *)
Definition evicted (self : Scratchpad) (w : World) : list string * World :=
  if max_notes self <=? size self
  then (tail (notes self), set_out (out w ++ [eviction_notice (max_notes self)]) w)
  else (notes self, w).

(** How many line feeds [s] holds. *)
Fixpoint newlines (s : string) : nat :=
  match s with
  | EmptyString => O
  | String c s' => (if decide (c = ascii_of_nat 10) then 1 else 0) + newlines s'
  end.

(** The content of the file at [path], a missing file read as empty. *)
Definition content (path : string) (w : World) : string := default "" (fs w !! path).

(** [run] came to an end: it left its loop or an exception escaped it;
    [Return None] would mean that the fuel of [run_loop] ran out. *)
Definition ended (r : result (option unit)) : bool :=
  match r with
  | Return (Some _) => true
  | Return None => false
  | Raise _ => true
  end.

(** Lines still waiting on the keyboard. *)
Definition pending (st : State) : nat := length (stdin st.2).

(** Unfolds the plumbing of the monad [M]. *)
Ltac step_m :=
  cbv beta iota delta
    [mbind M_bind mret M_ret get_self get_world put_self put_world emit raise
     lift_result show_status show_error try_except];
  cbn [fst snd].

(** ** What [redraw] writes *)

(** [s * n] *)
Fixpoint repeat_str (s : string) (n : nat) : string :=
  match n with
  | O => ""
  | S n' => s +:+ repeat_str s n'
  end.

(** [note.split('\n')[0]] *)
Fixpoint first_line (note : string) : string :=
  match note with
  | EmptyString => EmptyString
  | String c rest => if decide (c = ascii_of_nat 10) then EmptyString else String c (first_line rest)
  end.

(** The text shown for a note: its first line, cut to 67 characters and
    "..." when it is longer than 70. *)
Definition display_note (note : string) : string :=
  let first := first_line note in
  if Py.len first >? 70 then Py.take 67 first +:+ "..." else first.

Definition truncated_indicator (note : string) : string :=
  if Py.len (first_line note) >? 70 then " 📄+"
  else if Py.contains Py.nl note then " 📄+" else " 📄".

(** The line printed for the note numbered [i]:
    [f"   {i:2d}.{truncated_indicator} {display_note}"]. *)
Definition note_row (i : Z) (note : string) : string :=
  "   " +:+ Py.fmt_2d i +:+ "." +:+ truncated_indicator note +:+ " " +:+ display_note note.

(** The notes display: a placeholder for the empty store, else one row per
    note of [enumerate(self.notes, 1)]. *)
Definition notes_block (ns : list string) : list string :=
  match ns with
  | [] => ["   📭 No notes yet. Type 'add <text>' to start!"]
  | _ => map (λ '(i, note), note_row i note) (Py.enumerate 1 ns)
  end.

Definition status_line (has_clipboard : bool) (self : Scratchpad) : string :=
  let max_display :=
    "(" +:+ Py.str (Z.of_nat (length (notes self))) +:+ "/" +:+ Py.str (max_notes self) +:+ ")" in
  let clipboard_status :=
    if has_clipboard then "📋 Clipboard: ON" else "📋 Clipboard: OFF" in
  "📊 Notes " +:+ max_display +:+ " | " +:+ clipboard_status.

Definition commands : list string :=
  ["add <text>"; "copy <n>"; "copy all"; "delete <n>"; "delete all"; "search <term>"; "exit"].

(** Every line that [redraw] prints after clearing the terminal, for the
    object that a [Screen] event records. *)
Definition redraw_lines (has_clipboard : bool) (self : Scratchpad) : list string :=
  ["┌─────────────────────────────────────────────────────────────┐";
   "│                      📝 SCRATCHPAD                         │";
   "└─────────────────────────────────────────────────────────────┘";
   ""] ++
  notes_block (notes self) ++
  [""; repeat_str "─" 63; status_line has_clipboard self; repeat_str "─" 63;
   "💡 Commands:"; "   " +:+ Py.join " | " commands; repeat_str "─" 63].

(** The last character of [s], if there is one, is not whitespace. *)
Fixpoint last_solid (s : string) : bool :=
  match s with
  | EmptyString => true
  | String c EmptyString => negb (Py.isspace c)
  | String _ s' => last_solid s'
  end.

(** What one step of a session can do to the object and the files: the
    settings of the object stay, the bound on the notes is kept when it held,
    no file but the history file changes, and the history file only grows at
    its end. *)
Definition evolves (st st' : State) : Prop :=
  history_file st'.1 = history_file st.1 ∧
  max_notes st'.1 = max_notes st.1 ∧
  unsaved_notes st'.1 = unsaved_notes st.1 ∧
  (bounded st.1 → bounded st'.1) ∧
  (∀ p, p ≠ history_file st.1 → fs st'.2 !! p = fs st.2 !! p) ∧
  ∃ more, content (history_file st.1) st'.2 = content (history_file st.1) st.2 +:+ more.

(** [main]: the exit status of the process and the world it leaves.
    [Scratchpad()] is built with its default arguments; before that there is
    no object, so the object the computation starts from is of no
    consequence. The text of an unexpected exception is not recorded. *)
Definition main (env0 : Env) (envs : nat → Env) (w : World) : Z * World :=
  match (__init__ env0 "Scratchmd.md" 100;; run envs) (mkScratchpad [] "" 0 [], w) with
  | (Return _, (_, w')) => (0, w')
  | (Raise KeyboardInterrupt, (_, w')) =>
      (0, set_out (out w' ++ [Printed (Py.nl +:+ "👋 Goodbye!")]) w')
  | (Raise _, (_, w')) =>
      (1, set_out (out w' ++ [Printed "❌ Unexpected error"]) w')
  end.

(** The history file of [main] is there already or can be created. *)
Definition can_start (env0 : Env) (w : World) : Prop :=
  is_Some (fs w !! "Scratchmd.md") ∨ history_fault env0 = None.

(** The last [n] elements of [l] (all of [l] when it has no more). *)
Definition keep_last {A} (n : nat) (l : list A) : list A := drop (length l - n) l.

(** The lines that a run of adds writes to the history file. *)
Fixpoint history_lines (adds : list (Env * string)) : string :=
  match adds with
  | [] => ""
  | (env, text) :: rest => history_line (now env) text +:+ history_lines rest
  end.

(** The state in which the loop of [run] starts under [main]: the object
    has been built and the greeting printed. *)
Definition session_start (env0 : Env) (w : World) : State :=
  ((__init__ env0 "Scratchmd.md" 100;;
    emit (Printed "Welcome to Scratchpad! Type 'exit' to quit."))
     (mkScratchpad [] "" 0 [], w)).2.

(** The [n] turns of the loop that start with turn [k] in state [st] all
    ask for another turn. *)
Fixpoint turns_go_on (envs : nat → Env) (k n : nat) (st : State) : bool :=
  match n with
  | O => true
  | S n' =>
      match run_iteration (envs k) st with
      | (Return Next, st') => turns_go_on envs (S k) n' st'
      | _ => false
      end
  end.

(** The state after those [n] turns. *)
Fixpoint after_turns (envs : nat → Env) (k n : nat) (st : State) : State :=
  match n with
  | O => st
  | S n' => after_turns envs (S k) n' (run_iteration (envs k) st).2
  end.

(** A command after which the loop waits for Enter: the help page, or a
    search that finds something. *)
Definition pauses (command : string) (self : Scratchpad) : Prop :=
  Py.lower command ∈ ["help"; "?"] ∨
  (Py.startswith "search " command = true ∧
   Py.strip (Py.drop 7 command) ≠ "" ∧
   find_matches (Py.strip (Py.drop 7 command)) (notes self) ≠ []).

(** * Properties *)

(** ** Text *)

Lemma sapp_nil (t : string) : "" +:+ t = t.
Proof. reflexivity. Qed.

Lemma sapp_cons (c : ascii) (s t : string) : String c s +:+ t = String c (s +:+ t).
Proof. reflexivity. Qed.

Lemma sapp_assoc (s t u : string) : (s +:+ t) +:+ u = s +:+ t +:+ u.
Proof.
  induction s as [|c s IH]; [reflexivity|].
  rewrite !sapp_cons. by rewrite IH.
Qed.

Lemma startswith_spec (p s : string) :
  Py.startswith p s = true ↔ ∃ t, s = p +:+ t.
Proof.
  revert s. induction p as [|a p IH]; intros s; simpl.
  - split; [intros _; by exists s | done].
  - destruct s as [|b s].
    + split; [done | intros [t Ht]; rewrite sapp_cons in Ht; discriminate].
    + destruct (decide (a = b)) as [->|Hne].
      * rewrite IH. split; intros [t Ht]; exists t.
        -- rewrite sapp_cons. by rewrite Ht.
        -- rewrite sapp_cons in Ht. by injection Ht.
      * split; [done | intros [t Ht]; rewrite sapp_cons in Ht; congruence].
Qed.

Lemma contains_spec (needle hay : string) :
  Py.contains needle hay = true ↔ ∃ pre post, hay = pre +:+ needle +:+ post.
Proof.
  induction hay as [|c hay IH]; simpl.
  - rewrite orb_false_r, startswith_spec. split.
    + intros [t Ht]. by exists "", t.
    + intros [pre [post H]]. destruct pre; [by exists post | discriminate].
  - rewrite orb_true_iff, IH, startswith_spec. split.
    + intros [[t Ht] | [pre [post H]]].
      * by exists "", t.
      * exists (String c pre), post. rewrite sapp_cons. by rewrite H.
    + intros [pre [post H]]. destruct pre as [|c' pre].
      * left. by exists post.
      * right. rewrite sapp_cons in H. injection H as _ H. by exists pre, post.
Qed.

Lemma rstrip_blank (s : string) : blank s = true → Py.rstrip s = "".
Proof.
  induction s as [|c s IH]; simpl; [done|].
  intros [Hc Hs]%andb_true_iff. by rewrite (IH Hs), Hc.
Qed.

Lemma strip_blank (s : string) : blank s = true → Py.strip s = "".
Proof. intros H. unfold Py.strip. by rewrite rstrip_blank. Qed.

(** *** The built-ins on small inputs *)

Example lower_hello : Py.lower "Hello World 42" = "hello world 42".
Proof. reflexivity. Qed.

Example strip_pads : Py.strip "  a b  " = "a b".
Proof. reflexivity. Qed.

Example split_first_keeps_rest : Py.split_first "ADD  Hello   World" = ["ADD"; "Hello   World"].
Proof. reflexivity. Qed.

Example str_renders : (Py.str 0, Py.str 12, Py.fmt_2d 7) = ("0", "12", " 7").
Proof. reflexivity. Qed.

Example replace_brackets : Py.replace "ab" "[ab]" "xabab-a" = "x[ab][ab]-a".
Proof. reflexivity. Qed.

Example strftime_example :
  strftime (mkDatetime 2025 3 9 7 5 0) = "2025-03-09 07:05:00".
Proof. reflexivity. Qed.

(** ** Lists *)

Lemma pop_head {A} (x : A) (l : list A) : pop (x :: l) 0 = Return (x, l).
Proof.
  unfold pop, list_index. simpl length.
  replace (0 <? 0) with false by done.
  replace ((0 <=? 0) && (0 <? Z.of_nat (S (length l)))) with true; [done|].
  symmetry. apply andb_true_iff. split; [done|]. apply Z.ltb_lt. lia.
Qed.

Lemma pop_empty {A} (i : Z) : pop (@nil A) i = Raise IndexError.
Proof.
  unfold pop, list_index. simpl length.
  set (j := if i <? 0 then i + Z.of_nat 0 else i).
  destruct (Z.leb_spec 0 j), (Z.ltb_spec j (Z.of_nat 0)); simpl; try done; lia.
Qed.

(** ** Running a method *)

Lemma evictions_app (o1 o2 : list Event) :
  evictions (o1 ++ o2) = (evictions o1 + evictions o2)%nat.
Proof. unfold evictions. by rewrite filter_app, length_app. Qed.

Lemma evictions_logged env path text w :
  evictions (out (logged env path text w)) = evictions (out w).
Proof.
  unfold logged. destruct (history_fault env); simpl; [|done].
  rewrite evictions_app. unfold evictions at 2. simpl. lia.
Qed.

Lemma evictions_added env text ns self w :
  evictions (out (snd (added env text ns self w))) = evictions (out w).
Proof.
  unfold added. cbn [snd out set_out]. rewrite evictions_app, evictions_logged.
  replace (evictions [Status _]) with 0%nat by reflexivity. lia.
Qed.

Lemma evictions_notice (o : list Event) (limit : Z) :
  evictions (o ++ [eviction_notice limit]) = S (evictions o).
Proof.
  rewrite evictions_app. replace (evictions [eviction_notice limit]) with 1%nat by reflexivity. lia.
Qed.

(** *** handle_add, case by case *)

Lemma handle_add_empty env (st : State) :
  handle_add env "" st =
  (Return tt, (fst st, set_out (out (snd st) ++ [Error "Cannot add empty text"]) (snd st))).
Proof. reflexivity. Qed.

Lemma handle_add_room env text self w :
  text ≠ "" → size self < max_notes self →
  handle_add env text (self, w) = (Return tt, added env text (notes self ++ [text]) self w).
Proof.
  intros Ht Hlt. unfold handle_add, size in *.
  destruct text as [|c text]; [done|]. cbn [Py.truthy negb]. step_m.
  rewrite Z.geb_leb.
  destruct (Z.leb_spec (max_notes self) (Z.of_nat (length (notes self)))); [lia|].
  unfold log_to_history, added, logged. step_m.
  destruct (history_fault env); reflexivity.
Qed.

Lemma handle_add_full env text self w oldest rest :
  text ≠ "" → notes self = oldest :: rest → max_notes self <= size self →
  handle_add env text (self, w) =
  (Return tt,
   added env text (rest ++ [text]) self (set_out (out w ++ [eviction_notice (max_notes self)]) w)).
Proof.
  intros Ht Hns Hge. unfold handle_add, size in *.
  destruct text as [|c text]; [done|]. cbn [Py.truthy negb]. step_m.
  rewrite Z.geb_leb.
  destruct (Z.leb_spec (max_notes self) (Z.of_nat (length (notes self)))); [|lia].
  rewrite Hns, pop_head.
  unfold log_to_history, added, logged, eviction_notice. step_m.
  destruct (history_fault env); reflexivity.
Qed.

Lemma handle_add_no_capacity env text self w :
  text ≠ "" → notes self = [] → max_notes self <= 0 →
  handle_add env text (self, w) = (Raise IndexError, (self, w)).
Proof.
  intros Ht Hns Hge. unfold handle_add.
  destruct text as [|c text]; [done|]. cbn [Py.truthy negb]. step_m.
  rewrite Z.geb_leb, Hns.
  destruct (Z.leb_spec (max_notes self) (Z.of_nat (length (@nil string)))); [|simpl in *; lia].
  by rewrite pop_empty.
Qed.

(** Whatever the text and the surroundings, one call keeps the bound. *)
Lemma handle_add_bounded env text self w :
  bounded self →
  let self' := fst (snd (handle_add env text (self, w))) in
  bounded self' ∧ max_notes self' = max_notes self.
Proof.
  intros Hb. destruct (decide (text = "")) as [->|Ht]; [by rewrite handle_add_empty|].
  unfold bounded in *.
  destruct (Z.lt_ge_cases (size self) (max_notes self)) as [Hlt|Hge].
  - rewrite handle_add_room by done. unfold added, size in *. cbn.
    rewrite length_app. simpl. lia.
  - destruct (notes self) as [|oldest rest] eqn:Hns.
    + rewrite handle_add_no_capacity; [done..|]. unfold size in Hge. rewrite Hns in Hge. simpl in Hge. lia.
    + rewrite (handle_add_full _ _ _ _ oldest rest) by done.
      unfold added, size in *. cbn. rewrite Hns in Hb. rewrite length_app. simpl in *. lia.
Qed.

Lemma add_all_bounded (adds : list (Env * string)) self w :
  bounded self →
  let self' := fst (snd (add_all adds (self, w))) in
  bounded self' ∧ max_notes self' = max_notes self.
Proof.
  revert self w. induction adds as [|[env text] adds IH]; intros self w Hb; [done|].
  unfold add_all in *. cbn [for_each]. step_m.
  pose proof (handle_add_bounded env text self w Hb) as Hstep.
  destruct (handle_add env text (self, w)) as [[[]|e] [self1 w1]]; cbn in Hstep.
  - destruct Hstep as [Hb1 Hm1]. destruct (IH self1 w1 Hb1) as [Hb2 Hm2].
    split; [done | congruence].
  - done.
Qed.

(** C1. The note store never holds more than [max_notes] notes, whatever
    sequence of adds is made on it; an add made when the store is full first
    drops the note at position 0 and emits an eviction notice, then appends
    the new note at the end; an add made when there is room only appends.
    With [max_notes = 2], adding "x", "y", "z" to the empty store leaves
    ["y"; "z"] and exactly one eviction notice. *)
Theorem add_keeps_bound_by_evicting_oldest :
  (∀ adds self w, bounded self →
     let self' := fst (snd (add_all adds (self, w))) in
     bounded self' ∧ max_notes self' = max_notes self) ∧
  (∀ env text self w oldest rest,
     text ≠ "" → notes self = oldest :: rest → size self = max_notes self →
     ∃ w', handle_add env text (self, w) = (Return tt, (set_notes (rest ++ [text]) self, w')) ∧
           evictions (out w') = S (evictions (out w))) ∧
  (∀ env text self w,
     text ≠ "" → size self < max_notes self →
     ∃ w', handle_add env text (self, w) = (Return tt, (set_notes (notes self ++ [text]) self, w')) ∧
           evictions (out w') = evictions (out w)) ∧
  (∀ e1 e2 e3,
     let st := snd (add_all [(e1, "x"); (e2, "y"); (e3, "z")] (pad_of 2 [], blank_world)) in
     notes (fst st) = ["y"; "z"] ∧ evictions (out (snd st)) = 1%nat).
Proof.
  split; [exact add_all_bounded|]. split; [|split].
  - intros env text self w oldest rest Ht Hns Hfull.
    exists (snd (added env text (rest ++ [text]) self
                   (set_out (out w ++ [eviction_notice (max_notes self)]) w))).
    split.
    + by rewrite (handle_add_full env text self w oldest rest) by (done || lia).
    + rewrite evictions_added. cbn [out set_out]. apply evictions_notice.
  - intros env text self w Ht Hlt.
    exists (snd (added env text (notes self ++ [text]) self w)).
    split; [by rewrite handle_add_room | apply evictions_added].
  - intros e1 e2 e3. unfold add_all. cbn [for_each]. step_m.
    rewrite handle_add_room by done. unfold added.
    rewrite handle_add_room by done. unfold added.
    rewrite (handle_add_full _ _ _ _ "x" ["y"]) by done.
    split; [reflexivity|]. cbn [snd].
    rewrite evictions_added. cbn [out set_out]. rewrite evictions_notice.
    rewrite evictions_app, evictions_logged. cbn [out set_out].
    rewrite evictions_app, evictions_logged. reflexivity.
Qed.

Lemma add_keeps_bound_by_evicting_oldest_witness :
  bounded (pad_of 2 ["x"; "y"]) ∧
  ∃ w', handle_add calm "z" (pad_of 2 ["x"; "y"], blank_world) =
          (Return tt, (pad_of 2 ["y"; "z"], w')) ∧
        evictions (out w') = 1%nat.
Proof.
  split; [unfold bounded, size; simpl; lia|].
  destruct add_keeps_bound_by_evicting_oldest as (_ & Hfull & _ & _).
  apply (Hfull calm "z" (pad_of 2 ["x"; "y"]) blank_world "x" ["y"]); done.
Defined.

(** *** The loop body on an [add] line *)

Lemma lower_app (s t : string) : Py.lower (s +:+ t) = Py.lower s +:+ Py.lower t.
Proof.
  induction s as [|c s IH]; [done|].
  rewrite sapp_cons. simpl. by rewrite IH, sapp_cons.
Qed.

Lemma run_command_add env arg (st : State) :
  run_command env ("add " +:+ arg) st = (handle_add env (Py.strip arg);; mret Next) st.
Proof.
  unfold run_command. rewrite lower_app.
  destruct (decide _) as [H|_]; [discriminate H|].
  destruct (decide _) as [H|_]; [discriminate H|].
  destruct (decide _) as [H|_]; [discriminate H|].
  reflexivity.
Qed.

(** C3 (as the code has it). [handle_add] rejects the empty text with "Cannot
    add empty text" and changes neither the notes nor any file; text that is
    only whitespace is rejected in the same way once it has been trimmed,
    which is what the loop of [run] does with the argument of an [add] line
    before it calls [handle_add]. *)
Theorem add_rejects_text_that_trims_to_nothing env text (st : State) :
  blank text = true →
  let rejected := (fst st, set_out (out (snd st) ++ [Error "Cannot add empty text"]) (snd st)) in
  handle_add env (Py.strip text) st = (Return tt, rejected) ∧
  run_command env ("add " +:+ text) st = (Return Next, rejected).
Proof.
  intros Hb rejected. split.
  - by rewrite strip_blank.
  - rewrite run_command_add. step_m. by rewrite strip_blank.
Qed.

Lemma add_rejects_text_that_trims_to_nothing_witness :
  blank "   " = true ∧
  handle_add calm (Py.strip "   ") (pad_of 100 ["a"], blank_world) =
    (Return tt, (pad_of 100 ["a"], mkWorld ∅ None [] [Error "Cannot add empty text"])).
Proof.
  split; [reflexivity|].
  apply (add_rejects_text_that_trims_to_nothing calm "   " (pad_of 100 ["a"], blank_world)).
  reflexivity.
Defined.

(** C3 as stated fails: [handle_add] does not trim, so text of three spaces
    is stored as a note and written to the history file, and no error is
    shown. *)
Lemma handle_add_stores_whitespace_text :
  handle_add calm "   " (pad_of 100 [], blank_world) =
  (Return tt,
   (pad_of 100 ["   "],
    mkWorld {[ "Scratchmd.md" := history_line noon "   " ]} None [] [Status "Added note #1"])).
Proof. reflexivity. Qed.

Lemma list_index_in_range {A} (l : list A) (i : Z) :
  0 <= i < Z.of_nat (length l) → list_index l i = Some (Z.to_nat i).
Proof.
  intros [H0 Hlt]. unfold list_index.
  destruct (Z.ltb_spec i 0); [lia|].
  destruct (Z.leb_spec 0 i); [|lia].
  destruct (Z.ltb_spec i (Z.of_nat (length l))); [done | lia].
Qed.

Lemma in_range_lookup {A} (l : list A) (i : Z) :
  0 <= i < Z.of_nat (length l) → is_Some (l !! Z.to_nat i).
Proof. intros H. apply lookup_lt_is_Some. lia. Qed.

Lemma pop_in_range {A} (l : list A) (i : Z) (x : A) :
  0 <= i → l !! Z.to_nat i = Some x → pop l i = Return (x, delete (Z.to_nat i) l).
Proof.
  intros H0 Hx. unfold pop.
  rewrite list_index_in_range, Hx; [done|].
  apply lookup_lt_Some in Hx. lia.
Qed.

Lemma getitem_in_range {A} (l : list A) (i : Z) (x : A) :
  0 <= i → l !! Z.to_nat i = Some x → getitem l i = Return x.
Proof.
  intros H0 Hx. unfold getitem.
  rewrite list_index_in_range, Hx; [done|].
  apply lookup_lt_Some in Hx. lia.
Qed.

(** *** The clipboard *)

Lemma safe_clipboard_copy_clipped env text self w :
  safe_clipboard_copy env text (self, w) =
  (Return (clipped env text w).1, (self, (clipped env text w).2)).
Proof.
  unfold safe_clipboard_copy, clipped.
  destruct (HAS_CLIPBOARD env); simpl; [destruct (clipboard_fault env)|];
    step_m; cbn [out set_out]; by rewrite <- ?(assoc_L (++)).
Qed.

Lemma clipped_delivers env text w : delivered text (clipped env text w).2.
Proof.
  unfold delivered, clipped.
  destruct (HAS_CLIPBOARD env); [destruct (clipboard_fault env)|]; simpl; [right|by left|right];
    apply elem_of_app; right; set_solver.
Qed.

Lemma clipped_keeps_files env text w : fs (clipped env text w).2 = fs w.
Proof.
  unfold clipped.
  by destruct (HAS_CLIPBOARD env); [destruct (clipboard_fault env)|].
Qed.

(** *** handle_copy and handle_delete, case by case *)

Lemma handle_copy_out_of_range env index self w :
  index < 1 ∨ size self < index →
  handle_copy env index (self, w) =
  (Return tt, (self, set_out (out w ++ [Error "Invalid note number"]) w)).
Proof.
  intros H. unfold handle_copy, size in *. step_m.
  destruct (Z.ltb_spec index 1); [done|].
  destruct (Z.gtb_spec index (Z.of_nat (length (notes self)))); [done | lia].
Qed.

Lemma handle_copy_in_range env index self w note_text :
  1 <= index → notes self !! Z.to_nat (index - 1) = Some note_text →
  handle_copy env index (self, w) =
  (Return tt,
   (self, copied env note_text ("Copied note #" +:+ Py.str index) w)).
Proof.
  intros H1 Hx. unfold handle_copy. step_m.
  pose proof (lookup_lt_Some _ _ _ Hx).
  destruct (Z.ltb_spec index 1); [lia|].
  destruct (Z.gtb_spec index (Z.of_nat (length (notes self)))); [lia|]. simpl.
  rewrite (getitem_in_range _ _ note_text) by (done || lia).
  rewrite safe_clipboard_copy_clipped. unfold copied.
  by destruct (clipped env note_text w) as [[] w'].
Qed.

Lemma handle_delete_out_of_range index self w :
  index < 1 ∨ size self < index →
  handle_delete index (self, w) =
  (Return tt, (self, set_out (out w ++ [Error "Invalid note number"]) w)).
Proof.
  intros H. unfold handle_delete, size in *. step_m.
  destruct (Z.ltb_spec index 1); [done|].
  destruct (Z.gtb_spec index (Z.of_nat (length (notes self)))); [done | lia].
Qed.

Lemma handle_delete_in_range index self w deleted_note :
  1 <= index → notes self !! Z.to_nat (index - 1) = Some deleted_note →
  handle_delete index (self, w) =
  (Return tt,
   (set_notes (delete (Z.to_nat (index - 1)) (notes self)) self,
    set_out (out w ++ [Status ("Deleted: '" +:+ preview deleted_note +:+ "'")]) w)).
Proof.
  intros H1 Hx. unfold handle_delete. step_m.
  pose proof (lookup_lt_Some _ _ _ Hx).
  destruct (Z.ltb_spec index 1); [lia|].
  destruct (Z.gtb_spec index (Z.of_nat (length (notes self)))); [lia|]. simpl.
  by rewrite (pop_in_range _ _ deleted_note) by (done || lia).
Qed.

(** C2. For an index between 1 and the number of notes, [handle_delete]
    pops exactly the note at position index - 1 and shows that note (as the
    preview of the removed text); the notes before it stay where they were,
    each note after it moves down by one, and the store is one shorter.  If
    the index was the last valid one, copying with it afterwards fails with
    "Invalid note number". *)
Theorem delete_removes_one_note_and_renumbers (index : Z) self w :
  1 <= index <= size self →
  ∃ deleted_note self',
    notes self !! Z.to_nat (index - 1) = Some deleted_note ∧
    pop (notes self) (index - 1) = Return (deleted_note, notes self') ∧
    handle_delete index (self, w) =
      (Return tt,
       (self', set_out (out w ++ [Status ("Deleted: '" +:+ preview deleted_note +:+ "'")]) w)) ∧
    (∀ k, (k < Z.to_nat (index - 1))%nat → notes self' !! k = notes self !! k) ∧
    (∀ k, (Z.to_nat (index - 1) ≤ k)%nat → notes self' !! k = notes self !! S k) ∧
    size self' = size self - 1 ∧
    max_notes self' = max_notes self ∧
    (index = size self →
     ∀ env w', handle_copy env index (self', w') =
               (Return tt, (self', set_out (out w' ++ [Error "Invalid note number"]) w'))).
Proof.
  intros [H1 Hn]. unfold size in *.
  destruct (in_range_lookup (notes self) (index - 1)) as [deleted_note Hx]; [lia|].
  exists deleted_note, (set_notes (delete (Z.to_nat (index - 1)) (notes self)) self).
  assert (size (set_notes (delete (Z.to_nat (index - 1)) (notes self)) self)
          = Z.of_nat (length (notes self)) - 1) as Hsize.
  { unfold size. cbn [notes set_notes]. rewrite length_delete by eauto. lia. }
  repeat split.
  - done.
  - by apply pop_in_range; [lia|].
  - by apply handle_delete_in_range.
  - intros k Hk. by apply list_lookup_delete_lt.
  - intros k Hk. by apply list_lookup_delete_ge.
  - done.
  - intros -> env w'. apply handle_copy_out_of_range. right. lia.
Qed.

Lemma delete_removes_one_note_and_renumbers_witness :
  1 <= 2 <= size (pad_of 100 ["buy milk"; "call mom"]) ∧
  ∃ deleted_note self',
    deleted_note = "call mom" ∧ notes self' = ["buy milk"] ∧
    handle_delete 2 (pad_of 100 ["buy milk"; "call mom"], blank_world) =
      (Return tt, (self', mkWorld ∅ None [] [Status "Deleted: 'call mom'"])) ∧
    handle_copy calm 2 (self', blank_world) =
      (Return tt, (self', mkWorld ∅ None [] [Error "Invalid note number"])).
Proof.
  assert (1 <= 2 <= size (pad_of 100 ["buy milk"; "call mom"])) as Hrange by (by vm_compute).
  split; [exact Hrange|].
  destruct (delete_removes_one_note_and_renumbers 2 (pad_of 100 ["buy milk"; "call mom"])
              blank_world Hrange)
    as (deleted_note & self' & Hx & Hpop & Hdel & _ & _ & _ & _ & Hcopy).
  exists deleted_note, self'.
  injection Hx as <-. injection Hpop as Hns.
  repeat split.
  - by rewrite <- Hns.
  - exact Hdel.
  - apply (Hcopy eq_refl calm blank_world).
Defined.

Lemma copied_keeps_files env text done w : fs (copied env text done w) = fs w.
Proof.
  unfold copied. pose proof (clipped_keeps_files env text w).
  by destruct (clipped env text w) as [[] w'].
Qed.

Lemma copied_delivers env text done w : delivered text (copied env text done w).
Proof.
  unfold copied. pose proof (clipped_delivers env text w) as H.
  destruct (clipped env text w) as [[] w'] eqn:Hc; [|done].
  unfold clipped in Hc.
  destruct (HAS_CLIPBOARD env); [destruct (clipboard_fault env)|]; try discriminate.
  injection Hc as <-. by left.
Qed.

(** The transcript only grows by a hand-over, and never by "Nothing to copy". *)
Lemma copied_transcript env text done w :
  ∃ events, out (copied env text done w) = out w ++ events ∧ events ≠ [Error "Nothing to copy"].
Proof.
  unfold copied, clipped.
  destruct (HAS_CLIPBOARD env); [destruct (clipboard_fault env)|]; simpl; eauto.
Qed.

(** *** handle_copy_all *)

Lemma handle_copy_all_empty env self w :
  notes self = [] →
  handle_copy_all env (self, w) =
  (Return tt, (self, set_out (out w ++ [Error "Nothing to copy"]) w)).
Proof. intros H. unfold handle_copy_all. step_m. by rewrite H. Qed.

Lemma handle_copy_all_some env self w :
  notes self ≠ [] →
  handle_copy_all env (self, w) =
  (Return tt,
   (self,
    copied env (all_text (notes self))
      ("Copied all " +:+ Py.str (size self) +:+ " notes") w)).
Proof.
  intros H. unfold handle_copy_all, copied, size. step_m.
  destruct (notes self) as [|n ns] eqn:Hns; [done|].
  rewrite safe_clipboard_copy_clipped.
  by destruct (clipped env _ w) as [[] w'].
Qed.

Lemma numbered_lines (start : Z) (ns : list string) :
  map (λ '(i, note), Py.str (i + 1) +:+ ". " +:+ note) (Py.enumerate start ns) =
  imap (λ k note, Py.str (start + Z.of_nat k + 1) +:+ ". " +:+ note) ns.
Proof.
  revert start. induction ns as [|n ns IH]; intros start; [done|].
  simpl. rewrite IH. f_equal.
  - by rewrite Z.add_0_r.
  - apply imap_ext. intros k x _. simpl. do 3 f_equal. lia.
Qed.

(** C5. [handle_copy_all] answers "Nothing to copy" exactly when there are
    no notes. Otherwise the text it hands over is the notes joined by
    newlines, line k (counting from 0) being "<k+1>. <note k>", and that text
    reaches the clipboard or is printed; for ["a"; "b"] it is "1. a\n2. b". *)
Theorem copy_all_numbers_the_notes :
  (∀ env self w,
     handle_copy_all env (self, w) =
       (Return tt, (self, set_out (out w ++ [Error "Nothing to copy"]) w))
     ↔ notes self = []) ∧
  (∀ env self w,
     notes self ≠ [] →
     ∃ w', handle_copy_all env (self, w) = (Return tt, (self, w')) ∧
           delivered (all_text (notes self)) w') ∧
  (∀ ns, all_text ns =
         Py.join Py.nl (imap (λ k note, Py.str (Z.of_nat k + 1) +:+ ". " +:+ note) ns)) ∧
  all_text ["a"; "b"] = "1. a" +:+ Py.nl +:+ "2. b".
Proof.
  split; [|split; [|split]].
  - intros env self w. split; [|apply handle_copy_all_empty].
    intros Heq. destruct (decide (notes self = [])) as [|Hne]; [done|exfalso].
    rewrite handle_copy_all_some in Heq by done.
    destruct (copied_transcript env (all_text (notes self))
                ("Copied all " +:+ Py.str (size self) +:+ " notes") w) as (events & Hout & Hev).
    injection Heq as Heq. rewrite Heq in Hout. cbn [out set_out] in Hout.
    by apply app_inv_head in Hout.
  - intros env self w Hne. eexists. split; [by apply handle_copy_all_some|].
    apply copied_delivers.
  - intros ns. unfold all_text. by rewrite numbered_lines.
  - reflexivity.
Qed.

Lemma copy_all_numbers_the_notes_witness :
  notes (pad_of 100 ["a"; "b"]) ≠ [] ∧
  ∃ w', handle_copy_all calm (pad_of 100 ["a"; "b"], blank_world) =
          (Return tt, (pad_of 100 ["a"; "b"], w')) ∧
        delivered ("1. a" +:+ Py.nl +:+ "2. b") w'.
Proof.
  split; [done|].
  destruct copy_all_numbers_the_notes as (_ & Hsome & _ & _).
  apply (Hsome calm (pad_of 100 ["a"; "b"]) blank_world). done.
Defined.

(** *** handle_search *)

Lemma set_out_same w : set_out (out w) w = w.
Proof. by destruct w. Qed.

Lemma for_each_emit {A} (l : list A) (body : A → M unit) (f : A → Event) self w :
  (∀ x st, body x st = emit (f x) st) →
  for_each l body (self, w) = (Return tt, (self, set_out (out w ++ map f l) w)).
Proof.
  intros Hbody. revert w. induction l as [|x l IH]; intros w; simpl.
  - by rewrite app_nil_r, set_out_same.
  - step_m. rewrite Hbody. step_m. rewrite IH. cbn [out set_out].
    by rewrite <- (assoc_L (++)).
Qed.

Lemma handle_search_empty_query (st : State) :
  handle_search "" st =
  (Return tt, (st.1, set_out (out st.2 ++ [Error "Please provide a search term"]) st.2)).
Proof. reflexivity. Qed.

Lemma handle_search_none query self w :
  query ≠ "" → find_matches query (notes self) = [] →
  handle_search query (self, w) =
  (Return tt,
   (self, set_out (out w ++ [Error ("No notes found containing '" +:+ query +:+ "'")]) w)).
Proof.
  intros Hq Hm. unfold handle_search.
  destruct query as [|c q]; [done|]. cbn [Py.truthy negb]. step_m. by rewrite Hm.
Qed.

Lemma handle_search_found query self w :
  query ≠ "" → find_matches query (notes self) ≠ [] →
  handle_search query (self, w) =
  (_ ← input; mret tt)
    (self, set_out (out w ++ search_report query (find_matches query (notes self))) w).
Proof.
  intros Hq Hm. unfold handle_search.
  destruct query as [|c q]; [done|]. cbn [Py.truthy negb]. step_m.
  destruct (find_matches (String c q) (notes self)) as [|m ms] eqn:Hms; [done|].
  rewrite (for_each_emit _ _ (match_line (String c q))) by (by intros [index note] st).
  unfold search_report, set_out. cbn [fst snd out fs clipboard stdin].
  by rewrite <- !(assoc_L (++)).
Qed.

(** Waiting for Enter touches the keyboard and nothing else. *)
Lemma input_frame self w :
  ∃ r, (_ ← input; mret tt) (self, w) = (r, (self, set_stdin (tail (stdin w)) w)).
Proof.
  unfold input. step_m. destruct (stdin w) as [|[s|] rest] eqn:Hin; step_m; simpl.
  - exists (Raise EOFError). do 2 f_equal. destruct w; simpl in *; by subst.
  - by exists (Return tt).
  - by exists (Raise KeyboardInterrupt).
Qed.

(** C10. Copying one note, copying all notes and searching leave the
    scratchpad object as it was - its notes and its bound - whatever the
    argument, whether the clipboard works or not, and also when the wait for
    Enter at the end of a search is cut short. *)
Theorem queries_keep_the_store env self w :
  (∀ index, (handle_copy env index (self, w)).2.1 = self) ∧
  (handle_copy_all env (self, w)).2.1 = self ∧
  (∀ query, (handle_search query (self, w)).2.1 = self).
Proof.
  split; [|split].
  - intros index.
    destruct (decide (1 <= index <= size self)) as [[H1 Hn]|Hout].
    + destruct (in_range_lookup (notes self) (index - 1)) as [note_text Hx];
        [unfold size in Hn; lia|].
      by rewrite (handle_copy_in_range _ _ _ _ note_text).
    + rewrite handle_copy_out_of_range; [done | lia].
  - destruct (decide (notes self = [])).
    + by rewrite handle_copy_all_empty.
    + by rewrite handle_copy_all_some.
  - intros query.
    destruct (decide (query = "")) as [->|Hq]; [done|].
    destruct (decide (find_matches query (notes self) = [])).
    + by rewrite handle_search_none.
    + rewrite handle_search_found by done.
      by destruct (input_frame self
           (set_out (out w ++ search_report query (find_matches query (notes self))) w))
        as [r ->].
Qed.

(** *** The matches of a search *)

Lemma elem_of_enumerate {A} (start : Z) (l : list A) (i : Z) (x : A) :
  (i, x) ∈ Py.enumerate start l ↔ start <= i ∧ l !! Z.to_nat (i - start) = Some x.
Proof.
  revert start. induction l as [|y l IH]; intros start; simpl.
  - split; [by intros ?%elem_of_nil | by intros [_ ?]].
  - rewrite elem_of_cons, IH. split.
    + intros [[= -> ->] | [Hle Hx]].
      * split; [lia|]. by rewrite Z.sub_diag.
      * split; [lia|]. replace (Z.to_nat (i - start)) with (S (Z.to_nat (i - (start + 1)))) by lia.
        done.
    + intros [Hle Hx]. destruct (decide (i = start)) as [->|Hne].
      * left. rewrite Z.sub_diag in Hx. simpl in Hx. congruence.
      * right. split; [lia|].
        replace (Z.to_nat (i - start)) with (S (Z.to_nat (i - (start + 1)))) in Hx by lia.
        done.
Qed.

(** The loop of [handle_search] keeps, in order, the enumerated notes that
    are hits, each under its position plus one. *)
Lemma find_matches_filter (query : string) (ns : list string) :
  find_matches query ns = filter (hit query) (Py.enumerate 1 ns).
Proof.
  unfold find_matches.
  assert (∀ start acc,
            fold_left
              (λ matches '(i, note),
                 if Py.contains (Py.lower query) (Py.lower note)
                 then matches ++ [(i + 1, note)] else matches)
              (Py.enumerate start ns) acc
            = acc ++ filter (hit query) (Py.enumerate (start + 1) ns)) as Hgen.
  { induction ns as [|n ns IH]; intros start acc; simpl.
    - by rewrite app_nil_r.
    - rewrite IH, filter_cons.
      change (hit query (start + 1, n)) with (Py.contains (Py.lower query) (Py.lower n)).
      destruct (Py.contains (Py.lower query) (Py.lower n)); simpl.
      + by rewrite <- (assoc_L (++)).
      + done. }
  apply (Hgen 0 []).
Qed.

Lemma enumerate_sorted {A} (start : Z) (l : list A) (P : Z * A → bool) :
  StronglySorted Z.lt (filter P (Py.enumerate start l)).*1 ∧
  Forall (λ i, start <= i) (filter P (Py.enumerate start l)).*1.
Proof.
  revert start. induction l as [|x l IH]; intros start; simpl.
  - split; constructor.
  - destruct (IH (start + 1)) as [Hs Hf].
    assert (Forall (λ i, start < i) (filter P (Py.enumerate (start + 1) l)).*1) as Hlt.
    { eapply Forall_impl; [exact Hf|]. simpl. intros; lia. }
    rewrite filter_cons. case_decide; simpl.
    + split; constructor; [done..|lia|].
      eapply Forall_impl; [exact Hlt|]. simpl. intros; lia.
    + split; [done|]. eapply Forall_impl; [exact Hlt|]. simpl. intros; lia.
Qed.

Lemma find_matches_elem (query : string) (ns : list string) (i : Z) (note : string) :
  (i, note) ∈ find_matches query ns ↔
  1 <= i ∧ ns !! Z.to_nat (i - 1) = Some note ∧
  ∃ pre post, Py.lower note = pre +:+ Py.lower query +:+ post.
Proof.
  rewrite find_matches_filter, list_elem_of_filter, elem_of_enumerate.
  unfold hit. simpl. rewrite Is_true_true, contains_spec. tauto.
Qed.

(** C4 (as the code has it). For a non-empty query the matches of
    [handle_search] are exactly the pairs of a 1-based position and the note
    there whose lowercased text contains the lowercased query, in ascending
    order of position, and the search changes nothing in the store; "HELLO"
    matches any note containing "Hello world". When there are matches they
    are printed as the search report; when there are none the method calls
    [show_error] with "No notes found containing '<query>'". *)
Theorem search_finds_notes_ignoring_case query self w :
  query ≠ "" →
  let matches := find_matches query (notes self) in
  (∀ i note,
     (i, note) ∈ matches ↔
     1 <= i ∧ notes self !! Z.to_nat (i - 1) = Some note ∧
     ∃ pre post, Py.lower note = pre +:+ Py.lower query +:+ post) ∧
  StronglySorted Z.lt matches.*1 ∧
  (∀ ns k pre post,
     ns !! k = Some (pre +:+ "Hello world" +:+ post) →
     (Z.of_nat k + 1, pre +:+ "Hello world" +:+ post) ∈ find_matches "HELLO" ns) ∧
  (matches ≠ [] →
   ∃ r w', handle_search query (self, w) = (r, (self, w')) ∧
           out w' = out w ++ search_report query matches) ∧
  (matches = [] →
   handle_search query (self, w) =
   (Return tt,
    (self, set_out (out w ++ [Error ("No notes found containing '" +:+ query +:+ "'")]) w))).
Proof.
  intros Hq matches. split; [|split; [|split; [|split]]].
  - intros i note. apply find_matches_elem.
  - subst matches. rewrite find_matches_filter. apply enumerate_sorted.
  - intros ns k pre post Hk. apply find_matches_elem. split; [lia|]. split.
    + by replace (Z.to_nat (Z.of_nat k + 1 - 1)) with k by lia.
    + exists (Py.lower pre), (" world" +:+ Py.lower post).
      by rewrite !lower_app.
  - intros Hm. rewrite handle_search_found by done.
    destruct (input_frame self (set_out (out w ++ search_report query matches) w)) as [r Hr].
    eexists r, _. split; [exact Hr|]. done.
  - intros Hm. by apply handle_search_none.
Qed.

Lemma search_finds_notes_ignoring_case_witness :
  "HELLO" ≠ "" ∧
  find_matches "HELLO" ["buy milk"; "Hello world"] = [(2, "Hello world")] ∧
  StronglySorted Z.lt (find_matches "HELLO" ["buy milk"; "Hello world"]).*1.
Proof.
  split; [done|]. split; [reflexivity|].
  apply (search_finds_notes_ignoring_case "HELLO" (pad_of 100 ["buy milk"; "Hello world"])
           blank_world).
  done.
Defined.

(** C4 as stated fails in its last part: a search without matches is
    reported through [show_error], like every other failure. *)
Lemma search_without_match_is_shown_as_error :
  handle_search "zzz" (pad_of 100 ["Hello world"], blank_world) =
  (Return tt,
   (pad_of 100 ["Hello world"],
    mkWorld ∅ None [] [Error "No notes found containing 'zzz'"])).
Proof. reflexivity. Qed.

(** *** The loop body on [copy], [delete] and unknown lines *)

Lemma run_command_copy env arg (st : State) :
  Py.lower arg ≠ "all" →
  run_command env ("copy " +:+ arg) st =
  ((if Py.isdigit (Py.strip arg)
    then index ← lift_result (Py.int (Py.strip arg)); handle_copy env index
    else show_error "Usage: copy <number>");; mret Next) st.
Proof.
  intros Hall. unfold run_command. rewrite lower_app.
  destruct (decide _) as [H|_]; [discriminate H|].
  destruct (decide _) as [H|_]; [by injection H|].
  destruct (decide _) as [H|_]; [discriminate H|].
  reflexivity.
Qed.

Lemma run_command_delete env arg (st : State) :
  Py.lower arg ≠ "all" →
  run_command env ("delete " +:+ arg) st =
  ((if Py.isdigit (Py.strip arg)
    then index ← lift_result (Py.int (Py.strip arg)); handle_delete index
    else show_error "Usage: delete <number>");; mret Next) st.
Proof.
  intros Hall. unfold run_command. rewrite lower_app.
  destruct (decide _) as [H|_]; [discriminate H|].
  destruct (decide _) as [H|_]; [discriminate H|].
  destruct (decide _) as [H|_]; [by injection H|].
  reflexivity.
Qed.

Lemma run_command_uppercase_add env arg (st : State) :
  run_command env ("ADD " +:+ arg) st =
  (Return Next, (st.1, set_out (out st.2 ++ [unknown_command]) st.2)).
Proof.
  unfold run_command. rewrite lower_app.
  destruct (decide _) as [H|_]; [discriminate H|].
  destruct (decide _) as [H|_]; [discriminate H|].
  destruct (decide _) as [H|_]; [discriminate H|].
  change (Py.startswith "add " ("ADD " +:+ arg)) with false.
  change (Py.startswith "copy " ("ADD " +:+ arg)) with false.
  change (Py.startswith "delete " ("ADD " +:+ arg)) with false.
  change (Py.startswith "search " ("ADD " +:+ arg)) with false.
  cbv iota.
  destruct (decide _) as [H|_].
  { apply elem_of_cons in H as [H|H]; [discriminate H|].
    apply elem_of_cons in H as [H|H]; [discriminate H|]. by apply elem_of_nil in H. }
  reflexivity.
Qed.

(** *** parse_command *)

Lemma lstrip_solid c s : Py.isspace c = false → Py.lstrip (String c s) = String c s.
Proof. intros H. simpl. by rewrite H. Qed.

Lemma field_solid (token rest : string) c :
  solid token = true → Py.isspace c = true →
  Py.field (token +:+ String c rest) = (token, String c rest).
Proof.
  intros Ht Hc. induction token as [|a token IH].
  - rewrite sapp_nil. simpl. by rewrite Hc.
  - simpl in Ht. apply andb_true_iff in Ht as [Ha Ht].
    rewrite sapp_cons. simpl. apply negb_true_iff in Ha. by rewrite Ha, (IH Ht).
Qed.

Lemma lstrip_gap (gap rest : string) c :
  blank gap = true → Py.isspace c = false →
  Py.lstrip (gap +:+ String c rest) = String c rest.
Proof.
  intros Hg Hc. induction gap as [|a gap IH].
  - rewrite sapp_nil. by apply lstrip_solid.
  - simpl in Hg. apply andb_true_iff in Hg as [Ha Hg].
    rewrite sapp_cons. simpl. by rewrite Ha, (IH Hg).
Qed.

(** [parse_command] does what its docstring says: the line is cut at the
    first run of whitespace, the first word is lowercased, the remainder is
    kept as it is. *)
Lemma parse_command_splits (a : ascii) (token : string) (g : ascii) (gap : string)
      (r : ascii) (rest : string) :
  solid (String a token) = true → blank (String g gap) = true → Py.isspace r = false →
  parse_command (String a token +:+ String g gap +:+ String r rest) =
  Return (Action (Py.lower (String a token)) (String r rest)).
Proof.
  intros Ht Hg Hr. unfold parse_command, Py.split_first.
  pose proof Ht as Ha. simpl in Ha. apply andb_true_iff in Ha as [Ha _].
  pose proof Hg as Hg'. simpl in Hg'. apply andb_true_iff in Hg' as [Hg1 _].
  apply negb_true_iff in Ha.
  rewrite (sapp_cons a). cbn [Py.truthy negb].
  rewrite lstrip_solid by done. rewrite <- (sapp_cons a).
  rewrite (sapp_cons g), field_solid by done. rewrite <- (sapp_cons g).
  by rewrite lstrip_gap.
Qed.

(** C6 (the code at the failing input). [parse_command] turns "ADD hello"
    into the action "add" with the argument "hello", but the loop of [run]
    does not go through [parse_command]: it compares the line itself with
    "add ", so every line "ADD ..." is answered with "Unknown command" and
    the store stays as it was, whereas "add hello" stores the note and
    "COPY ALL" is dispatched like "copy all". *)
Theorem uppercase_add_is_an_unknown_command :
  parse_command "ADD hello" = Return (Action "add" "hello") ∧
  (∀ env arg st,
     run_command env ("ADD " +:+ arg) st =
     (Return Next, (st.1, set_out (out st.2 ++ [unknown_command]) st.2))) ∧
  run_command calm "add hello" (pad_of 100 [], blank_world) =
    (Return Next,
     (pad_of 100 ["hello"],
      mkWorld {[ "Scratchmd.md" := history_line noon "hello" ]} None []
        [Status "Added note #1"])) ∧
  run_command calm "COPY ALL" (pad_of 100 ["a"], blank_world) =
    run_command calm "copy all" (pad_of 100 ["a"], blank_world).
Proof.
  split; [reflexivity|]. split; [exact run_command_uppercase_add|].
  split; reflexivity.
Qed.

Lemma isdigit_char_value (c : ascii) :
  Py.isdigit_char c = true → 0 <= Z.of_nat (nat_of_ascii c) - 48 <= 9.
Proof.
  unfold Py.isdigit_char. intros [H1 H2]%andb_true_iff.
  apply Nat.leb_le in H1, H2. lia.
Qed.

Lemma int_from_nonneg (s : string) (acc : Z) :
  Py.all_digits s = true → 0 <= acc → 0 <= Py.int_from acc s.
Proof.
  revert acc. induction s as [|c s IH]; intros acc Hd Hacc; simpl in *; [done|].
  apply andb_true_iff in Hd as [Hc Hs]. apply IH; [done|].
  pose proof (isdigit_char_value c Hc). lia.
Qed.

Lemma int_short (s : string) :
  Py.len s <= Py.max_str_digits → Py.int s = Return (Py.int_from 0 s).
Proof. intros H. unfold Py.int. by destruct (Z.ltb_spec Py.max_str_digits (Py.len s)); [lia|]. Qed.

Lemma int_long (s : string) : Py.max_str_digits < Py.len s → Py.int s = Raise ValueError.
Proof. intros H. unfold Py.int. by destruct (Z.ltb_spec Py.max_str_digits (Py.len s)); [|lia]. Qed.

Lemma int_nonneg (s : string) (n : Z) : Py.isdigit s = true → Py.int s = Return n → 0 <= n.
Proof.
  unfold Py.isdigit, Py.int. intros [_ Hd]%andb_true_iff.
  destruct (Py.max_str_digits <? Py.len s); [done|]. intros [= <-]. by apply int_from_nonneg.
Qed.

Lemma bind_lift_result {A B} (r : result A) (m : A → M B) (st : State) :
  (x ← lift_result r; m x) st =
  match r with
  | Return a => m a st
  | Raise e => (Raise e, st)
  end.
Proof. reflexivity. Qed.

Lemma lower_char_a (c : ascii) : Py.lower_char c = "a"%char → c = "a"%char ∨ c = "A"%char.
Proof.
  destruct c as [[] [] [] [] [] [] [] []]; intros H; vm_compute in H;
    try discriminate H; auto.
Qed.

Lemma lower_char_l (c : ascii) : Py.lower_char c = "l"%char → c = "l"%char ∨ c = "L"%char.
Proof.
  destruct c as [[] [] [] [] [] [] [] []]; intros H; vm_compute in H;
    try discriminate H; auto.
Qed.

(** A string of digits is not the word "all" in any letter case. *)
Lemma digits_not_all (arg : string) : Py.isdigit (Py.strip arg) = true → Py.lower arg ≠ "all".
Proof.
  intros Hd Hall.
  destruct arg as [|a [|b [|c [|d s]]]]; try discriminate Hall.
  cbn [Py.lower] in Hall. injection Hall as Ha Hb Hc.
  apply lower_char_a in Ha. apply lower_char_l in Hb. apply lower_char_l in Hc.
  destruct Ha as [-> | ->], Hb as [-> | ->], Hc as [-> | ->]; vm_compute in Hd; discriminate Hd.
Qed.

(** C7 (as the code has it). On a line "copy <arg>" or "delete <arg>" the
    loop of [run] tests the trimmed argument with [isdigit]. When the test
    fails, and the argument is not the word "all" in any mix of capitals
    (which makes the line the command "copy all" or "delete all"), the usage
    message is shown and the store method is not called. When the test
    succeeds and the argument has at most 4300 digits, [int] gives its value,
    which is not negative, and the store method is called with it; the value
    0 is thus handed on and refused there with "Invalid note number". When
    the argument has more than 4300 digits, [int] raises ValueError and the
    store method is not called. In the refused cases the state is as
    before, up to the message shown. *)
Theorem copy_and_delete_lines_test_digits env arg (st : State) :
  let a := Py.strip arg in
  (Py.lower arg ≠ "all" → Py.isdigit a = false →
   run_command env ("copy " +:+ arg) st = (Return Next, refused "Usage: copy <number>" st) ∧
   run_command env ("delete " +:+ arg) st = (Return Next, refused "Usage: delete <number>" st)) ∧
  (Py.isdigit a = true → Py.len a <= 4300 →
   ∃ index,
     Py.int a = Return index ∧ 0 <= index ∧
     run_command env ("copy " +:+ arg) st = (handle_copy env index;; mret Next) st ∧
     run_command env ("delete " +:+ arg) st = (handle_delete index;; mret Next) st) ∧
  (Py.isdigit a = true → Py.int a = Return 0 →
   run_command env ("copy " +:+ arg) st = (Return Next, refused "Invalid note number" st) ∧
   run_command env ("delete " +:+ arg) st = (Return Next, refused "Invalid note number" st)) ∧
  (Py.isdigit a = true → 4300 < Py.len a →
   run_command env ("copy " +:+ arg) st = (Raise ValueError, st) ∧
   run_command env ("delete " +:+ arg) st = (Raise ValueError, st)).
Proof.
  intros a. subst a. destruct st as [self w]. split; [|split; [|split]].
  - intros Hall Hd. rewrite run_command_copy, run_command_delete by done.
    rewrite Hd. by step_m.
  - intros Hd Hlen. rewrite run_command_copy, run_command_delete by by apply digits_not_all.
    rewrite Hd. exists (Py.int_from 0 (Py.strip arg)).
    pose proof (int_short (Py.strip arg) Hlen) as Hint. rewrite Hint.
    split; [done|]. split; [by apply (int_nonneg (Py.strip arg))|]. done.
  - intros Hd Hz. rewrite run_command_copy, run_command_delete by by apply digits_not_all.
    rewrite Hd, Hz. step_m.
    rewrite handle_copy_out_of_range, handle_delete_out_of_range by lia. done.
  - intros Hd Hlong. rewrite run_command_copy, run_command_delete by by apply digits_not_all.
    rewrite Hd. unfold mbind at 1 3, M_bind at 1 3.
    by rewrite !bind_lift_result, int_long.
Qed.

Lemma copy_and_delete_lines_test_digits_witness :
  Py.lower "two" ≠ "all" ∧
  run_command calm "copy two" (pad_of 100 ["a"], blank_world) =
    (Return Next, (pad_of 100 ["a"], mkWorld ∅ None [] [Error "Usage: copy <number>"])).
Proof.
  assert (Py.lower "two" ≠ "all") as Hall by done.
  split; [exact Hall|].
  destruct (copy_and_delete_lines_test_digits calm "two" (pad_of 100 ["a"], blank_world))
    as (Hbad & _).
  apply Hbad; [exact Hall | reflexivity].
Defined.

(** C7 as stated fails for the value 0: "copy 0" passes the test, so
    [handle_copy] is called and it is its message, not the usage message,
    that is shown. *)
Lemma copy_zero_reaches_the_store :
  Py.isdigit "0" = true ∧
  run_command calm "copy 0" (pad_of 100 ["a"], blank_world) =
    (handle_copy calm 0;; mret Next) (pad_of 100 ["a"], blank_world) ∧
  run_command calm "copy 0" (pad_of 100 ["a"], blank_world) =
    (Return Next, (pad_of 100 ["a"], mkWorld ∅ None [] [Error "Invalid note number"])).
Proof. repeat split. Qed.

(** *** An accepted add *)

Lemma handle_add_accepted env text self w :
  text ≠ "" → 0 < max_notes self →
  handle_add env text (self, w) =
  (Return tt, added env text ((evicted self w).1 ++ [text]) self (evicted self w).2).
Proof.
  intros Ht Hcap. unfold evicted.
  destruct (Z.leb_spec (max_notes self) (size self)) as [Hfull|Hroom].
  - destruct (notes self) as [|oldest rest] eqn:Hns.
    + unfold size in Hfull. rewrite Hns in Hfull. simpl in Hfull. lia.
    + by rewrite (handle_add_full env text self w oldest rest).
  - by rewrite handle_add_room.
Qed.

Lemma evicted_notes self w :
  (evicted self w).1 = if max_notes self <=? size self then tail (notes self) else notes self.
Proof. unfold evicted. by destruct (max_notes self <=? size self). Qed.





(** *** The clock *)

Lemma digit_is_digit (n : nat) :
  Py.isdigit_char (digit n) = true ∧ digit n ≠ ascii_of_nat 10.
Proof.
  unfold digit. pose proof (Nat.mod_upper_bound n 10 ltac:(done)) as Hk.
  destruct (n mod 10)%nat as [|k]; [by split|].
  do 9 (destruct k as [|k]; [by split|]). lia.
Qed.


Lemma newlines_app (s t : string) : newlines (s +:+ t) = (newlines s + newlines t)%nat.
Proof.
  induction s as [|c s IH]; [done|].
  rewrite sapp_cons. simpl. rewrite IH. lia.
Qed.

Lemma strftime_one_line (d : datetime) : newlines (strftime d) = 0%nat.
Proof.
  cbv [strftime pad4 pad2 String.append]. cbn [newlines].
  repeat (rewrite decide_False; [|first [apply digit_is_digit | done]]).
  done.
Qed.

Lemma history_line_one_line (d : datetime) (text : string) :
  newlines text = 0%nat → newlines (history_line d text) = 1%nat.
Proof.
  intros Ht. unfold history_line.
  by rewrite !newlines_app, strftime_one_line, Ht.
Qed.

(** *** Who writes files *)



Lemma handle_delete_all_empty self w :
  notes self = [] →
  handle_delete_all (self, w) =
  (Return tt, (self, set_out (out w ++ [Error "Nothing to delete"]) w)).
Proof. intros H. unfold handle_delete_all. step_m. by rewrite H. Qed.

Lemma handle_delete_all_some self w :
  notes self ≠ [] →
  handle_delete_all (self, w) =
  (Return tt,
   (set_notes [] self,
    set_out (out w ++ [Status ("Deleted all " +:+ Py.str (size self) +:+ " notes")]) w)).
Proof.
  intros H. unfold handle_delete_all, size. step_m.
  by destruct (notes self).
Qed.

Lemma handle_copy_keeps_files env index self w :
  fs (handle_copy env index (self, w)).2.2 = fs w.
Proof.
  destruct (decide (1 <= index <= size self)) as [[H1 Hn]|Hout].
  - destruct (in_range_lookup (notes self) (index - 1)) as [note_text Hx];
      [unfold size in Hn; lia|].
    rewrite (handle_copy_in_range _ _ _ _ note_text) by done. apply copied_keeps_files.
  - by rewrite handle_copy_out_of_range by lia.
Qed.

Lemma handle_copy_all_keeps_files env self w :
  fs (handle_copy_all env (self, w)).2.2 = fs w.
Proof.
  destruct (decide (notes self = [])).
  - by rewrite handle_copy_all_empty.
  - rewrite handle_copy_all_some by done. apply copied_keeps_files.
Qed.



Lemma handle_search_keeps_files query self w :
  fs (handle_search query (self, w)).2.2 = fs w.
Proof.
  destruct (decide (query = "")) as [->|Hq]; [done|].
  destruct (decide (find_matches query (notes self) = [])).
  - by rewrite handle_search_none.
  - rewrite handle_search_found by done.
    by destruct (input_frame self
         (set_out (out w ++ search_report query (find_matches query (notes self))) w))
      as [r ->].
Qed.

Lemma evicted_keeps_files self w : fs (evicted self w).2 = fs w.
Proof. unfold evicted. by destruct (max_notes self <=? size self). Qed.

Lemma sapp_nil_r (s : string) : s +:+ "" = s.
Proof. induction s as [|c s IH]; [done|]. by rewrite sapp_cons, IH. Qed.

(** Whatever happens in [handle_add], the files are as before or the
    history file has received the line of the note. *)
Lemma handle_add_files env text self w :
  fs (handle_add env text (self, w)).2.2 = fs w ∨
  (text ≠ "" ∧ history_fault env = None ∧
   fs (handle_add env text (self, w)).2.2 =
     append_file (history_file self) (history_line (now env) text) (fs w)).
Proof.
  destruct (decide (text = "")) as [->|Ht]; [by left|].
  assert (∀ ns w0, fs w0 = fs w →
            fs (added env text ns self w0).2 = fs w ∨
            (text ≠ "" ∧ history_fault env = None ∧
             fs (added env text ns self w0).2 =
               append_file (history_file self) (history_line (now env) text) (fs w)))
    as Hadded.
  { intros ns w0 Hw0. unfold added, logged. cbn [snd fs set_out].
    destruct (history_fault env); simpl; [by left|]. right. by rewrite Hw0. }
  destruct (Z.lt_ge_cases (size self) (max_notes self)) as [Hroom|Hfull].
  - rewrite handle_add_room by done. by apply Hadded.
  - destruct (notes self) as [|oldest rest] eqn:Hns.
    + left. rewrite handle_add_no_capacity; [done..|].
      unfold size in Hfull. rewrite Hns in Hfull. simpl in Hfull. lia.
    + rewrite (handle_add_full env text self w oldest rest) by done. by apply Hadded.
Qed.






(** ** The loop of [run] *)

Lemma bind_ret_state {A B} (m : M A) (b : B) (st : State) :
  ((m;; mret b) st).2 = (m st).2.
Proof. step_m. by destruct (m st) as [[a|e] st']. Qed.

Lemma added_pending env text ns self w : stdin (added env text ns self w).2 = stdin w.
Proof. unfold added, logged. by destruct (history_fault env). Qed.

Lemma copied_pending env text done w : stdin (copied env text done w) = stdin w.
Proof.
  unfold copied, clipped.
  by destruct (HAS_CLIPBOARD env); [destruct (clipboard_fault env)|].
Qed.

Lemma handle_add_pending env text (st : State) :
  pending (handle_add env text st).2 = pending st.
Proof.
  destruct st as [self w]. unfold pending.
  destruct (decide (text = "")) as [->|Ht]; [done|].
  destruct (Z.lt_ge_cases (size self) (max_notes self)) as [Hroom|Hfull].
  - rewrite handle_add_room by done. cbn [snd]. by rewrite added_pending.
  - destruct (notes self) as [|oldest rest] eqn:Hns.
    + rewrite handle_add_no_capacity; [done..|].
      unfold size in Hfull. rewrite Hns in Hfull. simpl in Hfull. lia.
    + rewrite (handle_add_full env text self w oldest rest) by done.
      cbn [snd]. by rewrite added_pending.
Qed.

Lemma handle_copy_pending env index (st : State) :
  pending (handle_copy env index st).2 = pending st.
Proof.
  destruct st as [self w]. unfold pending.
  destruct (decide (1 <= index <= size self)) as [[H1 Hn]|Hout].
  - destruct (in_range_lookup (notes self) (index - 1)) as [note_text Hx];
      [unfold size in Hn; lia|].
    rewrite (handle_copy_in_range _ _ _ _ note_text) by done. cbn [snd].
    by rewrite copied_pending.
  - by rewrite handle_copy_out_of_range by lia.
Qed.

Lemma handle_copy_all_pending env (st : State) :
  pending (handle_copy_all env st).2 = pending st.
Proof.
  destruct st as [self w]. unfold pending. destruct (decide (notes self = [])).
  - by rewrite handle_copy_all_empty.
  - rewrite handle_copy_all_some by done. cbn [snd]. by rewrite copied_pending.
Qed.

Lemma handle_delete_pending index (st : State) :
  pending (handle_delete index st).2 = pending st.
Proof.
  destruct st as [self w]. unfold pending.
  destruct (decide (1 <= index <= size self)) as [[H1 Hn]|Hout].
  - destruct (in_range_lookup (notes self) (index - 1)) as [deleted_note Hx];
      [unfold size in Hn; lia|].
    by rewrite (handle_delete_in_range _ _ _ deleted_note).
  - by rewrite handle_delete_out_of_range by lia.
Qed.

Lemma handle_delete_all_pending (st : State) :
  pending (handle_delete_all st).2 = pending st.
Proof.
  destruct st as [self w]. unfold pending. destruct (decide (notes self = [])).
  - by rewrite handle_delete_all_empty.
  - by rewrite handle_delete_all_some.
Qed.

Lemma handle_search_pending query (st : State) :
  (pending (handle_search query st).2 ≤ pending st)%nat.
Proof.
  destruct st as [self w]. unfold pending.
  destruct (decide (query = "")) as [->|Hq]; [done|].
  destruct (decide (find_matches query (notes self) = [])).
  - by rewrite handle_search_none.
  - rewrite handle_search_found by done.
    destruct (input_frame self
      (set_out (out w ++ search_report query (find_matches query (notes self))) w))
      as [r ->].
    cbn [snd stdin set_stdin set_out]. destruct (stdin w); simpl; lia.
Qed.

Lemma show_help_pending (st : State) : (pending (show_help st).2 ≤ pending st)%nat.
Proof.
  destruct st as [self w]. unfold show_help, pending. step_m.
  match goal with
  | |- context [input (self, ?w1)] =>
      destruct (input_frame self w1) as [r Hr];
      unfold mbind, M_bind, mret, M_ret in Hr; rewrite Hr
  end.
  cbn [snd stdin set_stdin set_out]. destruct (stdin w); simpl; lia.
Qed.

(** The loop body never puts lines back on the keyboard. *)
Lemma run_command_pending env command (st : State) :
  (pending (run_command env command st).2 ≤ pending st)%nat.
Proof.
  unfold run_command.
  repeat match goal with
         | |- context [decide ?P] => destruct (decide P)
         | |- context [if ?b then _ else _] => destruct b
         | |- context [Py.int ?a] => destruct (Py.int a)
         end;
    rewrite ?bind_ret_state, ?bind_lift_result;
    first [ done
          | by rewrite handle_add_pending
          | by rewrite handle_copy_pending
          | by rewrite handle_copy_all_pending
          | by rewrite handle_delete_pending
          | by rewrite handle_delete_all_pending
          | apply handle_search_pending
          | apply show_help_pending
          | idtac ].
Qed.

Lemma run_command_exit env (st : State) : run_command env "exit" st = (Return Break, st).
Proof. reflexivity. Qed.

(** [get_user_input] hands over the next line, trimmed, and takes "exit"
    when the keyboard has ended or was interrupted. *)
Lemma get_user_input_line self w text rest :
  stdin w = Line text :: rest →
  ∃ w', get_user_input (self, w) = (Return (Py.strip text), (self, w')) ∧ stdin w' = rest.
Proof.
  intros Hin. unfold get_user_input, input. step_m. cbn [stdin set_out].
  rewrite Hin. step_m. by eexists.
Qed.

Lemma get_user_input_over self w :
  (∀ text rest, stdin w ≠ Line text :: rest) →
  ∃ w', get_user_input (self, w) = (Return "exit", (self, w')).
Proof.
  intros Hin. unfold get_user_input, input. step_m. cbn [stdin set_out].
  destruct (stdin w) as [|[text|] rest] eqn:Hw; step_m.
  - by eexists.
  - by destruct (Hin text rest).
  - by eexists.
Qed.

(** A turn that asks for another turn has used up at least one line. *)
Lemma run_iteration_progress env (st st' : State) :
  run_iteration env st = (Return Next, st') → (pending st' < pending st)%nat.
Proof.
  destruct st as [self w]. unfold run_iteration, redraw.
  change ((_ ← (self0 ← get_self; emit (Screen (notes self0) (max_notes self0)));
           command ← get_user_input; run_command env command) (self, w))
    with ((command ← get_user_input; run_command env command)
            (self, set_out (out w ++ [Screen (notes self) (max_notes self)]) w)).
  set (w1 := set_out (out w ++ [Screen (notes self) (max_notes self)]) w).
  assert (stdin w1 = stdin w) as Hw1 by done.
  destruct (stdin w) as [|[text|] rest] eqn:Hin.
  - destruct (get_user_input_over self w1) as [w' Hget]; [by rewrite Hw1|].
    unfold mbind, M_bind. rewrite Hget, run_command_exit. discriminate.
  - destruct (get_user_input_line self w1 text rest Hw1) as (w' & Hget & Hrest).
    unfold mbind, M_bind. rewrite Hget. intros Hrun.
    pose proof (run_command_pending env (Py.strip text) (self, w')) as Hle.
    rewrite Hrun in Hle. unfold pending in *. cbn [snd] in *.
    rewrite Hrest in Hle. rewrite Hin. simpl. lia.
  - destruct (get_user_input_over self w1) as [w' Hget]; [by rewrite Hw1|].
    unfold mbind, M_bind. rewrite Hget, run_command_exit. discriminate.
Qed.

Lemma run_loop_ends envs (fuel k : nat) (st : State) :
  (pending st < fuel)%nat → ended (run_loop envs k fuel st).1 = true.
Proof.
  revert k st. induction fuel as [|fuel IH]; intros k st Hfuel; [lia|].
  cbn [run_loop]. unfold mbind, M_bind.
  destruct (run_iteration (envs k) st) as [[[|]|e] st'] eqn:Hturn; [|done..].
  apply IH. apply run_iteration_progress in Hturn. lia.
Qed.

(** [run] comes to an end on every finite input: the loop is left on "exit",
    at the end of the input or on an interrupt, unless an exception escapes
    from a turn before that. *)
Theorem run_ends envs (st : State) : ended (run envs st).1 = true.
Proof.
  destruct st as [self w]. unfold run. step_m.
  apply run_loop_ends. unfold pending. cbn [snd stdin set_out]. lia.
Qed.

(** The session of the specification's scenario, from start to "exit". *)
Example session_scenario :
  let r := (__init__ calm "Scratchmd.md" 100;; run (λ _, calm))
             (pad_of 0 [],
              mkWorld ∅ None
                [Line "add buy milk"; Line "add call mom"; Line "delete 1"; Line "copy 1";
                 Line "exit"] []) in
  r.1 = Return (Some tt) ∧
  notes r.2.1 = ["call mom"] ∧
  clipboard r.2.2 = Some "call mom" ∧
  fs r.2.2 !! "Scratchmd.md" =
    Some (header +:+ history_line noon "buy milk" +:+ history_line noon "call mom") ∧
  List.filter (λ e, if e is Status _ then true else false) (out r.2.2) =
    [Status "Added note #1"; Status "Added note #2"; Status "Deleted: 'buy milk'";
     Status "Copied note #1"].
Proof. vm_compute. repeat split. Qed.

Lemma parse_command_splits_witness :
  solid "ADD" = true ∧ blank "  " = true ∧ Py.isspace "h" = false ∧
  parse_command "ADD  hello World" = Return (Action "add" "hello World").
Proof.
  split; [reflexivity|]. split; [reflexivity|]. split; [reflexivity|].
  exact (parse_command_splits "A" "DD" " " " " "h" "ello World" eq_refl eq_refl eq_refl).
Defined.

(** [handle_delete_all] answers "Nothing to delete" on an empty store and
    otherwise empties the store and reports how many notes there were. *)
Theorem delete_all_empties_the_store self w :
  (notes self = [] →
   handle_delete_all (self, w) =
   (Return tt, (self, set_out (out w ++ [Error "Nothing to delete"]) w))) ∧
  (notes self ≠ [] →
   handle_delete_all (self, w) =
   (Return tt,
    (set_notes [] self,
     set_out (out w ++ [Status ("Deleted all " +:+ Py.str (size self) +:+ " notes")]) w))).
Proof. split; [apply handle_delete_all_empty | apply handle_delete_all_some]. Qed.

(** Without pyperclip a copy shows the error and prints the text. *)
Example copy_without_clipboard :
  handle_copy no_clipboard 1 (pad_of 100 ["a"], blank_world) =
  (Return tt,
   (pad_of 100 ["a"],
    mkWorld ∅ None []
      [Error "Clipboard not available - install pyperclip"; Printed "Text content: a"])).
Proof. reflexivity. Qed.

(** With no capacity at all the first add raises IndexError. *)
Example add_without_capacity :
  handle_add calm "x" (pad_of 0 [], blank_world) = (Raise IndexError, (pad_of 0 [], blank_world)).
Proof. reflexivity. Qed.

(** ** More on text *)

Lemma slength_app (s t : string) :
  String.length (s +:+ t) = (String.length s + String.length t)%nat.
Proof.
  induction s as [|c s IH]; [done|]. rewrite sapp_cons. simpl. by rewrite IH.
Qed.

Lemma take_drop (n : nat) (s : string) : Py.take n s +:+ Py.drop n s = s.
Proof.
  revert s. induction n as [|n IH]; intros [|c s]; simpl; try done.
  by rewrite sapp_cons, IH.
Qed.

Lemma take_length (n : nat) (s : string) :
  String.length (Py.take n s) = (n `min` String.length s)%nat.
Proof.
  revert s. induction n as [|n IH]; intros [|c s]; simpl; try done. by rewrite IH.
Qed.

Lemma newlines_take (n : nat) (s : string) : newlines s = 0%nat → newlines (Py.take n s) = 0%nat.
Proof.
  revert s. induction n as [|n IH]; intros [|c s]; simpl; try done.
  destruct (decide (c = ascii_of_nat 10)); [done|]. simpl. apply IH.
Qed.

Lemma first_line_one_line (note : string) : newlines (first_line note) = 0%nat.
Proof.
  induction note as [|c note IH]; [done|]. simpl.
  destruct (decide (c = ascii_of_nat 10)) as [|Hc]; [done|]. simpl.
  by rewrite decide_False.
Qed.

(** The first line is the whole note, or what stands before its first line
    feed. *)
Lemma first_line_prefix (note : string) :
  (newlines note = 0%nat ∧ first_line note = note) ∨
  ∃ rest, note = first_line note +:+ Py.nl +:+ rest.
Proof.
  induction note as [|c note IH]; [by left|]. simpl.
  destruct (decide (c = ascii_of_nat 10)) as [->|Hc].
  - right. by exists note.
  - destruct IH as [[Hn Hf] | [rest Hrest]].
    + left. simpl. by rewrite Hf.
    + right. exists rest. rewrite sapp_cons. by rewrite <- Hrest.
Qed.

(** *** The deletion preview *)

(** The confirmation of a delete shows a note of up to 30 characters in
    full and the first 30 characters of a longer one followed by "...", so
    never more than 33 characters. *)
Theorem preview_is_short (deleted_note : string) :
  (String.length (preview deleted_note) ≤ 33)%nat ∧
  ((String.length deleted_note ≤ 30)%nat → preview deleted_note = deleted_note) ∧
  ((30 < String.length deleted_note)%nat →
   preview deleted_note = Py.take 30 deleted_note +:+ "..." ∧
   String.length (preview deleted_note) = 33%nat ∧
   deleted_note = Py.take 30 deleted_note +:+ Py.drop 30 deleted_note).
Proof.
  unfold preview, Py.len.
  destruct (Z.gtb_spec (Z.of_nat (String.length deleted_note)) 30) as [Hlong|Hshort].
  - assert (String.length (Py.take 30 deleted_note +:+ "...") = 33%nat) as Hlen.
    { rewrite slength_app, take_length. change (String.length "...") with 3%nat. lia. }
    split; [lia|]. split; [lia|]. intros _. by rewrite take_drop.
  - split; [lia|]. split; [done | lia].
Qed.

(** *** The rows of the screen *)

Lemma notes_block_rows (start : Z) (ns : list string) (k : nat) :
  map (λ '(i, note), note_row i note) (Py.enumerate start ns) !! k =
  note_row (start + Z.of_nat k) <$> ns !! k.
Proof.
  revert start k. induction ns as [|n ns IH]; intros start [|k]; simpl; try done.
  - by rewrite Z.add_0_r.
  - rewrite IH. by replace (start + 1 + Z.of_nat k) with (start + Z.pos (Pos.of_succ_nat k)) by lia.
Qed.

(** [redraw] shows one row per note, in store order and numbered from 1.
    The text of a row is the first line of the note when that has at most 70
    characters, and otherwise its first 67 characters followed by "...": it
    never has more than 70 characters and never a line feed.  The row is
    marked with "+" exactly when the note was cut or has further lines. *)
Theorem redraw_rows_fit (ns : list string) :
  (ns ≠ [] →
   length (notes_block ns) = length ns ∧
   ∀ k note, ns !! k = Some note →
             notes_block ns !! k = Some (note_row (Z.of_nat k + 1) note)) ∧
  (∀ note,
     (String.length (display_note note) ≤ 70)%nat ∧
     newlines (display_note note) = 0%nat ∧
     ((String.length (first_line note) ≤ 70)%nat → display_note note = first_line note) ∧
     ((70 < String.length (first_line note))%nat →
      display_note note = Py.take 67 (first_line note) +:+ "...") ∧
     (truncated_indicator note = " 📄+" ↔
      (70 < String.length (first_line note))%nat ∨ Py.contains Py.nl note = true)).
Proof.
  split.
  - intros Hne. unfold notes_block. destruct ns as [|n ns]; [done|]. split.
    + rewrite length_map. clear Hne. generalize 1. generalize (n :: ns).
      induction l as [|x l IH]; intros z; simpl; [done|]. by rewrite IH.
    + intros k note Hk. rewrite notes_block_rows, Hk. simpl. do 2 f_equal. lia.
  - intros note. unfold display_note, truncated_indicator, Py.len.
    destruct (Z.gtb_spec (Z.of_nat (String.length (first_line note))) 70) as [Hlong|Hshort].
    + split; [rewrite slength_app, take_length; change (String.length "...") with 3%nat; lia|].
      split; [rewrite newlines_app, newlines_take by apply first_line_one_line; done|].
      split; [lia|]. split; [done|]. split; [intros _; left; lia | done].
    + split; [lia|]. split; [apply first_line_one_line|].
      split; [done|]. split; [lia|].
      destruct (Py.contains Py.nl note); split; try done.
      * by right.
      * intros [?|?]; [lia | done].
Qed.

Lemma redraw_rows_fit_witness :
  ["buy milk"; "call mom"] ≠ [] ∧
  notes_block ["buy milk"; "call mom"] !! 1%nat = Some "    2. 📄 call mom".
Proof.
  assert (["buy milk"; "call mom"] ≠ []) as Hne by done.
  split; [exact Hne|].
  destruct (redraw_rows_fit ["buy milk"; "call mom"]) as [Hrows _].
  destruct (Hrows Hne) as [_ Hrow].
  exact (Hrow 1%nat "call mom" eq_refl).
Defined.

(** *** The highlight of a search result *)

Lemma replace_from_skip (old new : string) (passed rest : string) :
  Py.replace_from old new (String.length passed) (passed +:+ rest) =
  Py.replace_from old new 0 rest.
Proof.
  induction passed as [|c passed IH]; [done|].
  rewrite sapp_cons. simpl. exact IH.
Qed.

Lemma replace_absent (old new note : string) :
  Py.contains old note = false → Py.replace old new note = note.
Proof.
  unfold Py.replace. induction note as [|c note IH]; [done|].
  intros Hc. cbn [Py.contains] in Hc. apply orb_false_iff in Hc as [Hs Hrest].
  cbn [Py.replace_from]. rewrite Hs. by rewrite (IH Hrest).
Qed.

Lemma replace_at_head (c : ascii) (old new rest : string) :
  Py.replace (String c old) new (String c old +:+ rest) = new +:+ Py.replace (String c old) new rest.
Proof.
  unfold Py.replace. rewrite sapp_cons. cbn [Py.replace_from].
  replace (Py.startswith (String c old) (String c (old +:+ rest))) with true.
  - replace (String.length (String c old) - 1)%nat with (String.length old) by (simpl; lia).
    by rewrite replace_from_skip.
  - symmetry. apply startswith_spec. exists rest. by rewrite sapp_cons.
Qed.

(** The search marks a note with brackets only where the query stands in
    it letter for letter: a note that matches only because the search ignores
    case is listed as it is, and a note that begins with the query is listed
    with the query in brackets. *)
Theorem search_highlight_is_case_sensitive (query : string) (index : Z) (note : string) :
  (Py.contains query note = false →
   match_line query (index, note) =
   Printed ("   " +:+ Py.fmt_2d index +:+ ". " +:+ note)) ∧
  (∀ c q rest, query = String c q → note = query +:+ rest →
     match_line query (index, note) =
     Printed ("   " +:+ Py.fmt_2d index +:+ ". " +:+
              ("[" +:+ query +:+ "]") +:+ Py.replace query ("[" +:+ query +:+ "]") rest)) ∧
  match_line "HELLO" (index, "Hello world") =
    Printed ("   " +:+ Py.fmt_2d index +:+ ". " +:+ "Hello world").
Proof.
  split; [|split].
  - intros Habsent. unfold match_line. by rewrite replace_absent.
  - intros c q rest -> ->. unfold match_line. by rewrite replace_at_head.
  - reflexivity.
Qed.

(** *** Trimming *)

Lemma lstrip_empty_blank (s : string) : Py.lstrip s = "" → blank s = true.
Proof.
  induction s as [|c s IH]; [done|]. simpl.
  destruct (Py.isspace c); [exact IH | discriminate].
Qed.

Lemma rstrip_last_solid (s : string) : last_solid (Py.rstrip s) = true.
Proof.
  induction s as [|c s IH]; [done|]. simpl.
  destruct (Py.rstrip s) as [|r rs] eqn:Hr.
  - destruct (Py.isspace c) eqn:Hc; simpl; [done | by rewrite Hc].
  - exact IH.
Qed.

Lemma lstrip_last_solid (s : string) : last_solid s = true → last_solid (Py.lstrip s) = true.
Proof.
  induction s as [|c s IH]; [done|]. intros Hs. cbn [Py.lstrip].
  destruct (Py.isspace c) eqn:Hc; [|exact Hs].
  apply IH. simpl in Hs. destruct s; [done | exact Hs].
Qed.

Lemma strip_last_solid (s : string) : last_solid (Py.strip s) = true.
Proof. apply lstrip_last_solid, rstrip_last_solid. Qed.

Lemma rstrip_solid_end (s : string) : last_solid s = true → Py.rstrip s = s.
Proof.
  induction s as [|c s IH]; [done|]. intros Hs. simpl.
  destruct s as [|d s].
  - simpl in *. by destruct (Py.isspace c).
  - rewrite (IH Hs). done.
Qed.

Lemma lstrip_idem (s : string) : Py.lstrip (Py.lstrip s) = Py.lstrip s.
Proof.
  induction s as [|c s IH]; [done|]. simpl.
  destruct (Py.isspace c) eqn:Hc; [exact IH|]. simpl. by rewrite Hc.
Qed.

(** Trimming a second time changes nothing. *)
Lemma strip_idem (s : string) : Py.strip (Py.strip s) = Py.strip s.
Proof.
  unfold Py.strip at 1. rewrite rstrip_solid_end by apply strip_last_solid.
  unfold Py.strip. apply lstrip_idem.
Qed.

Lemma blank_not_solid_end (s : string) : blank s = true → s ≠ "" → last_solid s = false.
Proof.
  induction s as [|c s IH]; [done|]. intros [Hc Hs]%andb_true_iff _. simpl.
  destruct s as [|d s]; [by rewrite Hc|]. by apply IH.
Qed.

Lemma strip_nonempty (s : string) : last_solid s = true → s ≠ "" → Py.strip s ≠ "".
Proof.
  intros Hs Hne Hstrip. unfold Py.strip in Hstrip. rewrite rstrip_solid_end in Hstrip by done.
  apply lstrip_empty_blank in Hstrip. by rewrite blank_not_solid_end in Hs.
Qed.

Lemma last_solid_app (p t : string) :
  last_solid (p +:+ t) = if decide (t = "") then last_solid p else last_solid t.
Proof.
  induction p as [|c p IH].
  - rewrite sapp_nil. by destruct t.
  - rewrite sapp_cons. cbn [last_solid]. rewrite IH.
    destruct (p +:+ t) eqn:Hpt.
    + destruct p; [|discriminate]. rewrite sapp_nil in Hpt. subst. by rewrite decide_True.
    + destruct p as [|d p].
      * rewrite sapp_nil in Hpt. subst. by rewrite decide_False.
      * done.
Qed.

(** What follows a command word that ends in a space, in a trimmed line,
    does not trim to nothing. *)
Lemma argument_of_trimmed_line (word line : string) :
  last_solid word = false →
  Py.startswith word (Py.strip line) = true →
  Py.strip (Py.drop (String.length word) (Py.strip line)) ≠ "".
Proof.
  intros Hword [t Ht]%startswith_spec.
  pose proof (strip_last_solid line) as Hsolid. rewrite Ht in *.
  assert (Py.drop (String.length word) (word +:+ t) = t) as ->.
  { clear. induction word as [|c word IH]; [by destruct t|]. by rewrite sapp_cons. }
  rewrite last_solid_app in Hsolid. destruct (decide (t = "")) as [->|Hne]; [congruence|].
  by apply strip_nonempty.
Qed.

Lemma rstrip_word_blank (word tail : string) :
  last_solid word = true → word ≠ "" → blank tail = true → Py.rstrip (word +:+ tail) = word.
Proof.
  intros Hsolid Hne Htail. induction word as [|c word IH]; [done|].
  rewrite sapp_cons. cbn [Py.rstrip]. destruct word as [|d word].
  - rewrite sapp_nil, rstrip_blank by done. simpl in Hsolid.
    by destruct (Py.isspace c).
  - by rewrite IH.
Qed.

(** A line typed at the prompt reaches the loop body trimmed, so the text
    after "add ", "copy ", "delete " or "search " is never empty there: the
    checks for empty text in [handle_add] and [handle_search] cannot fail
    for a typed line.  A line that is "add" or "search" followed only by
    whitespace is answered with "Unknown command" and changes nothing. *)
Theorem typed_lines_carry_an_argument (line : string) :
  (Py.startswith "add " (Py.strip line) = true → Py.strip (Py.drop 4 (Py.strip line)) ≠ "") ∧
  (Py.startswith "copy " (Py.strip line) = true → Py.strip (Py.drop 5 (Py.strip line)) ≠ "") ∧
  (Py.startswith "delete " (Py.strip line) = true → Py.strip (Py.drop 7 (Py.strip line)) ≠ "") ∧
  (Py.startswith "search " (Py.strip line) = true → Py.strip (Py.drop 7 (Py.strip line)) ≠ "") ∧
  (∀ env st word, word ∈ ["add"; "search"; "copy"; "delete"] → blank line = true →
     run_command env (Py.strip (word +:+ " " +:+ line)) st =
     (Return Next, (st.1, set_out (out st.2 ++ [unknown_command]) st.2))).
Proof.
  split; [|split; [|split; [|split]]].
  - by apply (argument_of_trimmed_line "add ").
  - by apply (argument_of_trimmed_line "copy ").
  - by apply (argument_of_trimmed_line "delete ").
  - by apply (argument_of_trimmed_line "search ").
  - intros env st word Hword Hblank.
    assert (blank (" " +:+ line) = true) as Htail.
    { rewrite sapp_cons, sapp_nil. simpl. by rewrite Hblank. }
    unfold Py.strip.
    repeat (apply elem_of_cons in Hword as [->|Hword]);
      [| | | | by apply elem_of_nil in Hword];
      rewrite rstrip_word_blank by done; reflexivity.
Qed.

(** *** Reading a command *)

(** [get_user_input] never lets the end of the input or an interrupt
    escape: it always answers with a trimmed command, which is the typed line
    or, when there was none, "exit" after a farewell; it takes one entry from
    the keyboard and leaves the object, the files and the clipboard alone. *)
Theorem get_user_input_always_answers self w :
  ∃ command w',
    get_user_input (self, w) = (Return command, (self, w')) ∧
    Py.strip command = command ∧
    fs w' = fs w ∧ clipboard w' = clipboard w ∧ stdin w' = tail (stdin w) ∧
    match stdin w with
    | Line text :: _ => command = Py.strip text
    | _ => command = "exit" ∧ last (out w') = Some (Printed (Py.nl +:+ "Goodbye!"))
    end.
Proof.
  unfold get_user_input, input. step_m. cbn [stdin set_out].
  destruct (stdin w) as [|[text|] rest] eqn:Hw; step_m.
  - eexists _, _. split; [reflexivity|]. cbn. rewrite Hw. repeat split.
    by rewrite last_snoc.
  - eexists _, _. split; [reflexivity|]. cbn. repeat split. apply strip_idem.
  - eexists _, _. split; [reflexivity|]. cbn. repeat split. by rewrite last_snoc.
Qed.

(** *** Leaving the loop *)

Lemma then_next_is_not_break {A} (m : M A) (st : State) :
  ((m;; mret Next) st).1 ≠ Return Break.
Proof. step_m. by destruct (m st) as [[a|e] st']. Qed.

(** The loop of [run] is left by the command "exit", in any mix of
    capitals, and by no other command; "exit" changes nothing. *)
Theorem only_exit_leaves_the_loop env command (st : State) :
  ((run_command env command st).1 = Return Break ↔ Py.lower command = "exit") ∧
  (Py.lower command = "exit" → run_command env command st = (Return Break, st)).
Proof.
  assert (Py.lower command = "exit" → run_command env command st = (Return Break, st)) as Hexit.
  { intros He. unfold run_command. by rewrite decide_True. }
  split; [|exact Hexit]. split; [|by intros ->%Hexit].
  unfold run_command. destruct (decide (Py.lower command = "exit")); [done|].
  intros Hbreak. exfalso. revert Hbreak.
  repeat match goal with
         | |- context [decide ?P] => destruct (decide P)
         | |- context [if ?b then _ else _] => destruct b
         end;
    first [ apply then_next_is_not_break | done ].
Qed.

(** *** An add followed by a copy or a delete *)

(** After an accepted add the number announced in "Added note #n" is the
    position of the new note and is within the bound; copying that number
    hands over the text just added; deleting it restores the earlier notes
    when there had been room, and leaves them without their first note when
    the store had been full. *)
Theorem add_then_copy_or_delete env env' text self w :
  text ≠ "" → 0 < max_notes self → bounded self →
  let st1 := (handle_add env text (self, w)).2 in
  notes st1.1 !! Z.to_nat (size st1.1 - 1) = Some text ∧
  last (out st1.2) = Some (Status ("Added note #" +:+ Py.str (size st1.1))) ∧
  1 <= size st1.1 <= max_notes self ∧
  delivered text (handle_copy env' (size st1.1) st1).2.2 ∧
  (size self < max_notes self → notes (handle_delete (size st1.1) st1).2.1 = notes self) ∧
  (size self = max_notes self → notes (handle_delete (size st1.1) st1).2.1 = tail (notes self)).
Proof.
  intros Ht Hcap Hb st1. subst st1. rewrite handle_add_accepted by done.
  change (Return (), ?st).2 with st.
  set (kept := (evicted self w).1). set (w1 := (evicted self w).2).
  assert (size (added env text (kept ++ [text]) self w1).1 = Z.of_nat (length kept) + 1) as Hsize.
  { unfold size, added. cbn. rewrite length_app. simpl. lia. }
  assert (notes (added env text (kept ++ [text]) self w1).1 !! length kept = Some text) as Hlast.
  { unfold added. cbn. by rewrite list_lookup_middle. }
  assert (Z.of_nat (length kept) + 1 <= max_notes self) as Hbound.
  { subst kept. rewrite evicted_notes. unfold bounded, size in *.
    destruct (Z.leb_spec (max_notes self) (Z.of_nat (length (notes self)))).
    - destruct (notes self); simpl in *; lia.
    - lia. }
  assert (Z.to_nat (Z.of_nat (length kept) + 1 - 1) = length kept) as Hidx.
  { by rewrite Z.add_simpl_r, Nat2Z.id. }
  rewrite Hsize, Hidx.
  split; [exact Hlast|]. split.
  { unfold added. cbn [snd out set_out]. rewrite last_snoc. do 4 f_equal.
    rewrite length_app. simpl. lia. }
  split; [lia|]. split.
  { destruct (added env text (kept ++ [text]) self w1) as [self1 w2] eqn:Hadded.
    rewrite (handle_copy_in_range _ _ _ _ text); [apply copied_delivers | lia |].
    by rewrite Hidx. }
  assert (notes (handle_delete (Z.of_nat (length kept) + 1)
                   (added env text (kept ++ [text]) self w1)).2.1 = kept) as Hdel.
  { destruct (added env text (kept ++ [text]) self w1) as [self1 w2] eqn:Hadded.
    assert (notes self1 = kept ++ [text]) as Hns.
    { unfold added in Hadded. by injection Hadded as <- _. }
    rewrite (handle_delete_in_range _ _ _ text); [| lia |].
    - cbn [fst snd notes set_notes]. rewrite Hidx, Hns. rewrite (delete_middle kept [] text). by rewrite app_nil_r.
    - by rewrite Hidx. }
  rewrite Hdel. subst kept. rewrite evicted_notes. split; intros Hs.
  - by destruct (Z.leb_spec (max_notes self) (size self)); [lia|].
  - by destruct (Z.leb_spec (max_notes self) (size self)); [|lia].
Qed.

Lemma add_then_copy_or_delete_witness :
  "z" ≠ "" ∧ 0 < max_notes (pad_of 2 ["x"; "y"]) ∧ bounded (pad_of 2 ["x"; "y"]) ∧
  notes (handle_delete 2 (handle_add calm "z" (pad_of 2 ["x"; "y"], blank_world)).2).2.1 = ["y"].
Proof.
  assert (bounded (pad_of 2 ["x"; "y"])) as Hb by (unfold bounded, size; simpl; lia).
  split; [done|]. split; [done|]. split; [exact Hb|].
  destruct (add_then_copy_or_delete calm calm "z" (pad_of 2 ["x"; "y"]) blank_world)
    as (_ & _ & _ & _ & _ & Hfull); [done..|].
  exact (Hfull eq_refl).
Defined.

(** ** What a whole session keeps *)

Lemma evolves_refl (st : State) : evolves st st.
Proof. repeat split; try done. exists "". by rewrite sapp_nil_r. Qed.

Lemma evolves_trans (a b c : State) : evolves a b → evolves b c → evolves a c.
Proof.
  intros (Hf1 & Hm1 & Hu1 & Hb1 & Ho1 & [m1 Hc1]) (Hf2 & Hm2 & Hu2 & Hb2 & Ho2 & [m2 Hc2]).
  rewrite Hf1 in *. repeat split; try congruence.
  - auto.
  - intros p Hp. by rewrite Ho2, Ho1.
  - exists (m1 +:+ m2). by rewrite Hc2, Hc1, sapp_assoc.
Qed.

Lemma evolves_quiet (st st' : State) : st'.1 = st.1 → fs st'.2 = fs st.2 → evolves st st'.
Proof.
  intros Hself Hfs. unfold evolves, content. rewrite Hself, Hfs.
  repeat split; try done. exists "". by rewrite sapp_nil_r.
Qed.

Lemma handle_copy_self env index self w : (handle_copy env index (self, w)).2.1 = self.
Proof.
  destruct (decide (1 <= index <= size self)) as [[H1 Hn]|Hout].
  - destruct (in_range_lookup (notes self) (index - 1)) as [note_text Hx];
      [unfold size in Hn; lia|].
    by rewrite (handle_copy_in_range _ _ _ _ note_text).
  - rewrite handle_copy_out_of_range; [done | lia].
Qed.

Lemma handle_copy_all_self env self w : (handle_copy_all env (self, w)).2.1 = self.
Proof.
  destruct (decide (notes self = [])).
  - by rewrite handle_copy_all_empty.
  - by rewrite handle_copy_all_some.
Qed.

Lemma handle_search_self query self w : (handle_search query (self, w)).2.1 = self.
Proof.
  destruct (decide (query = "")) as [->|Hq]; [done|].
  destruct (decide (find_matches query (notes self) = [])).
  - by rewrite handle_search_none.
  - rewrite handle_search_found by done.
    by destruct (input_frame self
         (set_out (out w ++ search_report query (find_matches query (notes self))) w))
      as [r ->].
Qed.

Lemma show_help_frame (st : State) : (show_help st).2.1 = st.1 ∧ fs (show_help st).2.2 = fs st.2.
Proof.
  destruct st as [self w]. unfold show_help. step_m.
  match goal with
  | |- context [input (self, ?w1)] =>
      destruct (input_frame self w1) as [r Hr];
      unfold mbind, M_bind, mret, M_ret in Hr; rewrite Hr
  end.
  done.
Qed.

Lemma handle_add_settings env text self w :
  history_file (handle_add env text (self, w)).2.1 = history_file self ∧
  max_notes (handle_add env text (self, w)).2.1 = max_notes self ∧
  unsaved_notes (handle_add env text (self, w)).2.1 = unsaved_notes self.
Proof.
  destruct (decide (text = "")) as [->|Ht]; [done|].
  destruct (Z.lt_ge_cases (size self) (max_notes self)) as [Hroom|Hfull].
  - by rewrite handle_add_room.
  - destruct (notes self) as [|oldest rest] eqn:Hns.
    + rewrite handle_add_no_capacity; [done..|].
      unfold size in Hfull. rewrite Hns in Hfull. simpl in Hfull. lia.
    + by rewrite (handle_add_full env text self w oldest rest).
Qed.

Lemma handle_add_evolves env text (st : State) : evolves st (handle_add env text st).2.
Proof.
  destruct st as [self w].
  destruct (handle_add_settings env text self w) as (Hf & Hm & Hu).
  pose proof (handle_add_bounded env text self w) as Hb. cbn zeta in Hb.
  unfold evolves. cbn [fst snd]. split; [done|]. split; [done|].
  split; [done|]. split; [intros Hbs; apply (Hb Hbs)|].
  unfold content.
  destruct (handle_add_files env text self w) as [-> | (_ & _ & ->)].
  - split; [done|]. exists "". by rewrite sapp_nil_r.
  - unfold append_file. split.
    + intros p Hp. by rewrite lookup_insert_ne.
    + eexists. by rewrite lookup_insert_eq.
Qed.

Lemma handle_delete_evolves index (st : State) : evolves st (handle_delete index st).2.
Proof.
  destruct st as [self w].
  destruct (decide (1 <= index <= size self)) as [[H1 Hn]|Hout].
  - destruct (in_range_lookup (notes self) (index - 1)) as [deleted_note Hx];
      [unfold size in Hn; lia|].
    rewrite (handle_delete_in_range _ _ _ deleted_note) by done.
    unfold evolves, content, bounded, size. cbn.
    repeat split; try done.
    + intros Hb. rewrite length_delete by eauto. lia.
    + exists "". by rewrite sapp_nil_r.
  - rewrite handle_delete_out_of_range by lia. by apply evolves_quiet.
Qed.

Lemma handle_delete_all_evolves (st : State) : evolves st (handle_delete_all st).2.
Proof.
  destruct st as [self w]. destruct (decide (notes self = [])).
  - rewrite handle_delete_all_empty by done. by apply evolves_quiet.
  - rewrite handle_delete_all_some by done.
    unfold evolves, content, bounded, size. cbn.
    repeat split; try done.
    + lia.
    + exists "". by rewrite sapp_nil_r.
Qed.

Lemma run_command_evolves env command (st : State) : evolves st (run_command env command st).2.
Proof.
  unfold run_command.
  repeat match goal with
         | |- context [decide ?P] => destruct (decide P)
         | |- context [if ?b then _ else _] => destruct b
         | |- context [Py.int ?a] => destruct (Py.int a)
         end;
    rewrite ?bind_ret_state, ?bind_lift_result;
    first [ apply evolves_refl
          | apply handle_add_evolves
          | apply handle_delete_evolves
          | apply handle_delete_all_evolves
          | destruct st as [self w]; apply evolves_quiet;
            [ first [ apply handle_copy_self | apply handle_copy_all_self
                    | apply handle_search_self | apply show_help_frame | done ]
            | first [ apply handle_copy_keeps_files | apply handle_copy_all_keeps_files
                    | apply handle_search_keeps_files | apply show_help_frame | done ] ] ].
Qed.

Lemma get_user_input_frame self w :
  ∃ command w', get_user_input (self, w) = (Return command, (self, w')) ∧ fs w' = fs w.
Proof.
  unfold get_user_input, input. step_m. cbn [stdin set_out].
  destruct (stdin w) as [|[text|] rest]; step_m; by eexists _, _.
Qed.

Lemma run_iteration_evolves env (st : State) : evolves st (run_iteration env st).2.
Proof.
  destruct st as [self w]. unfold run_iteration, redraw.
  change ((_ ← (self0 ← get_self; emit (Screen (notes self0) (max_notes self0)));
           command ← get_user_input; run_command env command) (self, w))
    with ((command ← get_user_input; run_command env command)
            (self, set_out (out w ++ [Screen (notes self) (max_notes self)]) w)).
  destruct (get_user_input_frame self
              (set_out (out w ++ [Screen (notes self) (max_notes self)]) w))
    as (command & w' & Hget & Hfs).
  unfold mbind, M_bind. rewrite Hget.
  apply (evolves_trans _ (self, w')); [by apply evolves_quiet|].
  apply run_command_evolves.
Qed.

Lemma run_loop_evolves envs (fuel k : nat) (st : State) :
  evolves st (run_loop envs k fuel st).2.
Proof.
  revert k st. induction fuel as [|fuel IH]; intros k st; [apply evolves_refl|].
  cbn [run_loop]. unfold mbind, M_bind.
  pose proof (run_iteration_evolves (envs k) st) as Hturn.
  destruct (run_iteration (envs k) st) as [[[|]|e] st']; cbn [snd] in *; try done.
  by apply (evolves_trans _ st').
Qed.

Lemma run_evolves envs (st : State) : evolves st (run envs st).2.
Proof.
  destruct st as [self w]. unfold run. step_m.
  eapply evolves_trans; [|apply run_loop_evolves]. by apply evolves_quiet.
Qed.

(** Through a whole session, whatever is typed and whatever fails, the
    store never holds more notes than its bound when it started within it,
    and the bound, the name of the history file and [unsaved_notes] are
    never changed. *)
Theorem session_keeps_the_bound envs (st : State) :
  bounded st.1 →
  let st' := (run envs st).2 in
  bounded st'.1 ∧
  max_notes st'.1 = max_notes st.1 ∧
  history_file st'.1 = history_file st.1 ∧
  unsaved_notes st'.1 = unsaved_notes st.1.
Proof.
  intros Hb st'. destruct (run_evolves envs st) as (Hf & Hm & Hu & Hbound & _).
  auto.
Qed.

Lemma session_keeps_the_bound_witness :
  bounded (pad_of 1 []) ∧
  bounded (run (λ _, calm)
             (pad_of 1 [], mkWorld ∅ None [Line "add a"; Line "add b"; Line "add c"] [])).2.1.
Proof.
  assert (bounded (pad_of 1 [])) as Hb by (unfold bounded, size; simpl; lia).
  split; [exact Hb|].
  apply (session_keeps_the_bound (λ _, calm)
           (pad_of 1 [], mkWorld ∅ None [Line "add a"; Line "add b"; Line "add c"] [])).
  exact Hb.
Defined.

(** Through a whole session no file other than the history file is
    created, changed or removed, and the history file keeps all it held: its
    old content is a prefix of the new. *)
Theorem session_writes_only_its_history envs (st : State) :
  let st' := (run envs st).2 in
  (∀ p, p ≠ history_file st.1 → fs st'.2 !! p = fs st.2 !! p) ∧
  ∃ more, content (history_file st.1) st'.2 = content (history_file st.1) st.2 +:+ more.
Proof.
  intros st'. by destruct (run_evolves envs st) as (_ & _ & _ & _ & Hother & Hgrow).
Qed.

(** ** The program as a whole *)

Lemma init_starts env0 w :
  can_start env0 w →
  ∃ w0, __init__ env0 "Scratchmd.md" 100 (mkScratchpad [] "" 0 [], w) =
          (Return tt, (mkScratchpad [] "Scratchmd.md" 100 [], w0)) ∧
        stdin w0 = stdin w.
Proof.
  intros Hstart. unfold __init__, init_history. step_m. cbn [history_file].
  destruct (fs w !! "Scratchmd.md") as [c|] eqn:Hf; [by eexists|].
  destruct Hstart as [[c Hc]|He]; [congruence|]. rewrite He. by eexists.
Qed.

Lemma init_fails env0 w e :
  fs w !! "Scratchmd.md" = None → history_fault env0 = Some e →
  __init__ env0 "Scratchmd.md" 100 (mkScratchpad [] "" 0 [], w) =
  (Raise OSError, (mkScratchpad [] "Scratchmd.md" 100 [], w)).
Proof.
  intros Hf He. unfold __init__, init_history. step_m. cbn [history_file].
  by rewrite Hf, He.
Qed.

Lemma startswith_lower (p c : string) :
  Py.startswith p c = true → Py.startswith (Py.lower p) (Py.lower c) = true.
Proof.
  intros [t ->]%startswith_spec. apply startswith_spec. exists (Py.lower t). apply lower_app.
Qed.

Lemma run_command_help env command (st : State) :
  Py.lower command ∈ ["help"; "?"] →
  run_command env command st = (show_help;; mret Next) st.
Proof.
  intros Hhelp. unfold run_command.
  assert (∀ p, Py.startswith (Py.lower p) (Py.lower command) = false →
               Py.startswith p command = false) as Hno.
  { intros p Hp. destruct (Py.startswith p command) eqn:Hs; [|done].
    apply startswith_lower in Hs. congruence. }
  pose proof Hhelp as Hl.
  apply elem_of_cons in Hl as [Hl|Hl];
    [|apply elem_of_cons in Hl as [Hl|Hl]; [|by apply elem_of_nil in Hl]];
    rewrite !(decide_False (P := Py.lower command = _)) by (by rewrite Hl);
    rewrite !Hno by (by rewrite Hl);
    by rewrite decide_True.
Qed.

Lemma show_help_cut_short self w :
  (stdin w = [] → (show_help (self, w)).1 = Raise EOFError) ∧
  (∀ rest, stdin w = CtrlC :: rest → (show_help (self, w)).1 = Raise KeyboardInterrupt).
Proof.
  unfold show_help, input. step_m. cbn [stdin set_out].
  split; [intros ->|intros rest ->]; by step_m.
Qed.

Lemma handle_search_cut_short query self w :
  query ≠ "" → find_matches query (notes self) ≠ [] →
  (stdin w = [] → (handle_search query (self, w)).1 = Raise EOFError) ∧
  (∀ rest, stdin w = CtrlC :: rest →
           (handle_search query (self, w)).1 = Raise KeyboardInterrupt).
Proof.
  intros Hq Hm. rewrite handle_search_found by done.
  unfold input. step_m. cbn [stdin set_out].
  split; [intros ->|intros rest ->]; by step_m.
Qed.

(** One turn on the last typed line, when that line asks for the help
    page. *)
Lemma run_iteration_help env self w line rest :
  stdin w = Line line :: rest → Py.lower (Py.strip line) ∈ ["help"; "?"] →
  (rest = [] → (run_iteration env (self, w)).1 = Raise EOFError) ∧
  (∀ more, rest = CtrlC :: more → (run_iteration env (self, w)).1 = Raise KeyboardInterrupt).
Proof.
  intros Hin Hhelp. unfold run_iteration, redraw.
  change ((_ ← (self0 ← get_self; emit (Screen (notes self0) (max_notes self0)));
           command ← get_user_input; run_command env command) (self, w))
    with ((command ← get_user_input; run_command env command)
            (self, set_out (out w ++ [Screen (notes self) (max_notes self)]) w)).
  destruct (get_user_input_line self
              (set_out (out w ++ [Screen (notes self) (max_notes self)]) w) line rest Hin)
    as (w' & Hget & Hrest).
  destruct (show_help_cut_short self w') as [Heof Hint].
  split.
  - intros ->. specialize (Heof Hrest).
    unfold mbind at 1, M_bind at 1. rewrite Hget, run_command_help by done. step_m.
    destruct (show_help (self, w')) as [[[]|e] st']; simplify_eq/=; reflexivity.
  - intros more ->. specialize (Hint more Hrest).
    unfold mbind at 1, M_bind at 1. rewrite Hget, run_command_help by done. step_m.
    destruct (show_help (self, w')) as [[[]|e] st']; simplify_eq/=; reflexivity.
Qed.

Lemma main_status env0 envs w :
  (main env0 envs w).1 =
  match ((__init__ env0 "Scratchmd.md" 100;; run envs) (mkScratchpad [] "" 0 [], w)).1 with
  | Return _ | Raise KeyboardInterrupt => 0
  | Raise _ => 1
  end.
Proof.
  unfold main.
  by destruct ((__init__ env0 "Scratchmd.md" 100;; run envs) (mkScratchpad [] "" 0 [], w))
    as [[r|[]] [self' w']].
Qed.

Lemma run_at_end envs self w : stdin w = [] → (run envs (self, w)).1 = Return (Some tt).
Proof.
  intros Hin. unfold run. step_m. cbn [stdin set_out]. rewrite Hin.
  cbn [length run_loop]. unfold mbind at 1, M_bind at 1.
  unfold run_iteration, redraw. step_m.
  match goal with
  | |- context [get_user_input (self, ?w1)] =>
      destruct (get_user_input_over self w1) as [w2 Hget];
      [cbn [stdin set_out]; by rewrite Hin | rewrite Hget]
  end.
  by rewrite run_command_exit.
Qed.

Lemma run_help_cut_short envs self w line rest :
  stdin w = Line line :: rest → Py.lower (Py.strip line) ∈ ["help"; "?"] →
  (rest = [] → (run envs (self, w)).1 = Raise EOFError) ∧
  (∀ more, rest = CtrlC :: more → (run envs (self, w)).1 = Raise KeyboardInterrupt).
Proof.
  intros Hin Hhelp.
  destruct (run_iteration_help (envs 0%nat) self
              (set_out (out w ++ [Printed "Welcome to Scratchpad! Type 'exit' to quit."]) w)
              line rest Hin Hhelp) as [Heof Hint].
  split.
  - intros Hrest. specialize (Heof Hrest).
    unfold run. step_m. cbn [stdin set_out]. rewrite Hin.
    cbn [length run_loop]. unfold mbind at 1, M_bind at 1.
    destruct (run_iteration _ _) as [[f|e] st1]; simplify_eq/=; reflexivity.
  - intros more Hrest. specialize (Hint more Hrest).
    unfold run. step_m. cbn [stdin set_out]. rewrite Hin.
    cbn [length run_loop]. unfold mbind at 1, M_bind at 1.
    destruct (run_iteration _ _) as [[f|e] st1]; simplify_eq/=; reflexivity.
Qed.

Lemma run_command_search env command (st : State) :
  Py.startswith "search " command = true →
  run_command env command st = (handle_search (Py.strip (Py.drop 7 command));; mret Next) st.
Proof.
  intros [t ->]%startswith_spec. unfold run_command. rewrite lower_app.
  destruct (decide _) as [H|_]; [discriminate H|].
  destruct (decide _) as [H|_]; [discriminate H|].
  destruct (decide _) as [H|_]; [discriminate H|].
  reflexivity.
Qed.

(** A turn whose line makes the loop pause, when nothing or an interrupt
    follows that line. *)
Lemma run_iteration_pause env self w line rest :
  stdin w = Line line :: rest → pauses (Py.strip line) self →
  (rest = [] → (run_iteration env (self, w)).1 = Raise EOFError) ∧
  (∀ more, rest = CtrlC :: more → (run_iteration env (self, w)).1 = Raise KeyboardInterrupt).
Proof.
  intros Hin [Hhelp | (Hsearch & Hquery & Hfound)];
    [exact (run_iteration_help env self w line rest Hin Hhelp)|].
  unfold run_iteration, redraw.
  change ((_ ← (self0 ← get_self; emit (Screen (notes self0) (max_notes self0)));
           command ← get_user_input; run_command env command) (self, w))
    with ((command ← get_user_input; run_command env command)
            (self, set_out (out w ++ [Screen (notes self) (max_notes self)]) w)).
  destruct (get_user_input_line self
              (set_out (out w ++ [Screen (notes self) (max_notes self)]) w) line rest Hin)
    as (w' & Hget & Hrest).
  destruct (handle_search_cut_short (Py.strip (Py.drop 7 (Py.strip line))) self w' Hquery Hfound)
    as [Heof Hint].
  split.
  - intros ->. specialize (Heof Hrest).
    unfold mbind at 1, M_bind at 1. rewrite Hget, run_command_search by done. step_m.
    destruct (handle_search _ (self, w')) as [[[]|e] st']; simplify_eq/=; reflexivity.
  - intros more ->. specialize (Hint more Hrest).
    unfold mbind at 1, M_bind at 1. rewrite Hget, run_command_search by done. step_m.
    destruct (handle_search _ (self, w')) as [[[]|e] st']; simplify_eq/=; reflexivity.
Qed.

(** A turn at whose prompt the input has ended or is interrupted, or at
    which "exit" is typed, leaves the loop. *)
Lemma run_iteration_leaves env self w :
  match stdin w with
  | Line line :: _ => Py.lower (Py.strip line) = "exit"
  | _ => True
  end →
  (run_iteration env (self, w)).1 = Return Break.
Proof.
  intros Hleave. unfold run_iteration, redraw.
  change ((_ ← (self0 ← get_self; emit (Screen (notes self0) (max_notes self0)));
           command ← get_user_input; run_command env command) (self, w))
    with ((command ← get_user_input; run_command env command)
            (self, set_out (out w ++ [Screen (notes self) (max_notes self)]) w)).
  set (w1 := set_out (out w ++ [Screen (notes self) (max_notes self)]) w).
  assert (stdin w1 = stdin w) as Hw1 by done.
  destruct (stdin w) as [|[line|] rest] eqn:Hin.
  - destruct (get_user_input_over self w1) as [w' Hget]; [by rewrite Hw1|].
    unfold mbind, M_bind. by rewrite Hget, run_command_exit.
  - destruct (get_user_input_line self w1 line rest Hw1) as (w' & Hget & _).
    unfold mbind, M_bind. rewrite Hget. unfold run_command. by rewrite decide_True.
  - destruct (get_user_input_over self w1) as [w' Hget]; [by rewrite Hw1|].
    unfold mbind, M_bind. by rewrite Hget, run_command_exit.
Qed.

Lemma run_loop_unroll envs (n k fuel : nat) (st : State) :
  turns_go_on envs k n st = true →
  run_loop envs k (n + fuel) st = run_loop envs (k + n) fuel (after_turns envs k n st).
Proof.
  revert k st. induction n as [|n IH]; intros k st Hgo.
  - simpl. by rewrite Nat.add_0_r.
  - cbn [turns_go_on after_turns] in *. cbn [Nat.add run_loop]. unfold mbind, M_bind.
    destruct (run_iteration (envs k) st) as [[[|]|e] st']; try discriminate.
    cbn [snd]. rewrite (IH (S k) st' Hgo). f_equal. lia.
Qed.

Lemma after_turns_pending envs (n k : nat) (st : State) :
  turns_go_on envs k n st = true → (pending (after_turns envs k n st) + n ≤ pending st)%nat.
Proof.
  revert k st. induction n as [|n IH]; intros k st Hgo; [simpl; lia|].
  cbn [turns_go_on after_turns] in *.
  destruct (run_iteration (envs k) st) as [[[|]|e] st'] eqn:Hturn; try discriminate.
  cbn [snd]. specialize (IH (S k) st' Hgo).
  apply run_iteration_progress in Hturn. lia.
Qed.

Lemma run_loop_last envs (k fuel : nat) (st : State) :
  (run_loop envs k (S fuel) st).1 =
  match (run_iteration (envs k) st).1 with
  | Return Break => Return (Some tt)
  | Return Next => (run_loop envs (S k) fuel (run_iteration (envs k) st).2).1
  | Raise e => Raise e
  end.
Proof.
  cbn [run_loop]. unfold mbind, M_bind.
  by destruct (run_iteration (envs k) st) as [[[|]|e] st'].
Qed.

Lemma main_loop env0 envs w :
  can_start env0 w →
  (__init__ env0 "Scratchmd.md" 100;; run envs) (mkScratchpad [] "" 0 [], w) =
  run_loop envs 0 (S (pending (session_start env0 w))) (session_start env0 w).
Proof.
  intros Hstart.
  destruct (init_starts env0 w Hstart) as (w0 & Hinit & Hw0).
  assert (session_start env0 w =
          (mkScratchpad [] "Scratchmd.md" 100 [],
           set_out (out w0 ++ [Printed "Welcome to Scratchpad! Type 'exit' to quit."]) w0))
    as ->.
  { unfold session_start. unfold mbind, M_bind. by rewrite Hinit. }
  unfold mbind, M_bind. rewrite Hinit. unfold run. by step_m.
Qed.

(** After [n] turns that went on, the status of [main] is decided by the
    next turn. *)
Lemma main_status_after env0 envs w (n : nat) :
  can_start env0 w →
  turns_go_on envs 0 n (session_start env0 w) = true →
  (main env0 envs w).1 =
  match (run_iteration (envs n) (after_turns envs 0 n (session_start env0 w))).1 with
  | Return Break | Raise KeyboardInterrupt => 0
  | Raise _ => 1
  | Return Next => (main env0 envs w).1
  end.
Proof.
  intros Hstart Hgo.
  destruct (run_iteration (envs n) _) as [r st'] eqn:Hturn. cbn [fst].
  destruct r as [[|]|e]; [reflexivity| |].
  - rewrite main_status, main_loop by done.
    pose proof (after_turns_pending envs n 0 _ Hgo) as Hpend.
    replace (S (pending (session_start env0 w)))
      with (n + S (pending (session_start env0 w) - n))%nat by lia.
    rewrite run_loop_unroll by done. rewrite run_loop_last. cbn [Nat.add].
    by rewrite Hturn.
  - rewrite main_status, main_loop by done.
    pose proof (after_turns_pending envs n 0 _ Hgo) as Hpend.
    replace (S (pending (session_start env0 w)))
      with (n + S (pending (session_start env0 w) - n))%nat by lia.
    rewrite run_loop_unroll by done. rewrite run_loop_last. cbn [Nat.add].
    rewrite Hturn. by destruct e.
Qed.

(** The exit status of the program. When the history file is missing and
    cannot be created the program ends with status 1 before it reads
    anything. Otherwise, after any number of turns that went on: the end of
    the input, an interrupt or the command "exit" at the prompt ends the
    program with status 0; the end of the input while the help page or the
    result of a search waits for Enter ends it with status 1, and an
    interrupt at that point ends it with status 0. *)
Theorem main_exit_status env0 envs w :
  (∀ e, fs w !! "Scratchmd.md" = None → history_fault env0 = Some e →
        (main env0 envs w).1 = 1 ∧ stdin (main env0 envs w).2 = stdin w ∧
        fs (main env0 envs w).2 = fs w) ∧
  (can_start env0 w →
   ∀ n, turns_go_on envs 0 n (session_start env0 w) = true →
     let st := after_turns envs 0 n (session_start env0 w) in
     (stdin st.2 = [] → (main env0 envs w).1 = 0) ∧
     (∀ rest, stdin st.2 = CtrlC :: rest → (main env0 envs w).1 = 0) ∧
     (∀ line rest, stdin st.2 = Line line :: rest → Py.lower (Py.strip line) = "exit" →
                   (main env0 envs w).1 = 0) ∧
     (∀ line, stdin st.2 = [Line line] → pauses (Py.strip line) st.1 →
              (main env0 envs w).1 = 1) ∧
     (∀ line more, stdin st.2 = Line line :: CtrlC :: more → pauses (Py.strip line) st.1 →
                   (main env0 envs w).1 = 0)).
Proof.
  split.
  - intros e Hf He.
    assert (main env0 envs w = (1, set_out (out w ++ [Printed "❌ Unexpected error"]) w)) as ->.
    { unfold main. unfold mbind, M_bind. by rewrite (init_fails env0 w e). }
    done.
  - intros Hstart n Hgo st.
    pose proof (main_status_after env0 envs w n Hstart Hgo) as Hstatus. fold st in Hstatus.
    destruct st as [self w1] eqn:Hst. cbn [fst snd].
    split; [|split; [|split; [|split]]].
    + intros Hin. rewrite Hstatus, run_iteration_leaves; [done | by rewrite Hin].
    + intros rest Hin. rewrite Hstatus, run_iteration_leaves; [done | by rewrite Hin].
    + intros line rest Hin Hexit. rewrite Hstatus, run_iteration_leaves; [done | by rewrite Hin].
    + intros line Hin Hpause.
      destruct (run_iteration_pause (envs n) self w1 line [] Hin Hpause) as [Heof _].
      by rewrite Hstatus, (Heof eq_refl).
    + intros line more Hin Hpause.
      destruct (run_iteration_pause (envs n) self w1 line (CtrlC :: more) Hin Hpause)
        as [_ Hint].
      by rewrite Hstatus, (Hint more eq_refl).
Qed.

Lemma main_exit_status_witness :
  can_start calm (mkWorld ∅ None [Line "add Milk"; Line "search milk"] []) ∧
  turns_go_on (λ _, calm) 0 1
    (session_start calm (mkWorld ∅ None [Line "add Milk"; Line "search milk"] [])) = true ∧
  (main calm (λ _, calm) (mkWorld ∅ None [Line "add Milk"; Line "search milk"] [])).1 = 1.
Proof.
  assert (can_start calm (mkWorld ∅ None [Line "add Milk"; Line "search milk"] []))
    as Hstart by (by right).
  assert (turns_go_on (λ _, calm) 0 1
            (session_start calm (mkWorld ∅ None [Line "add Milk"; Line "search milk"] []))
          = true) as Hgo by (by vm_compute).
  split; [exact Hstart|]. split; [exact Hgo|].
  destruct (main_exit_status calm (λ _, calm)
              (mkWorld ∅ None [Line "add Milk"; Line "search milk"] []))
    as [_ Hafter].
  destruct (Hafter Hstart 1%nat Hgo) as (_ & _ & _ & Hpause & _).
  apply (Hpause "search milk"); [by vm_compute|].
  right. split; [by vm_compute|]. split; by vm_compute.
Defined.

(** ** The clipboard hand-over *)

(** [safe_clipboard_copy] never raises and touches neither the object,
    the files nor the keyboard. It answers True exactly when pyperclip is
    there and works, and then the text is on the clipboard and nothing is
    printed; otherwise the clipboard keeps what it held, and an error and the
    text itself are printed. *)
Theorem safe_clipboard_copy_outcome env text self w :
  ∃ ok w',
    safe_clipboard_copy env text (self, w) = (Return ok, (self, w')) ∧
    fs w' = fs w ∧ stdin w' = stdin w ∧
    (ok = true ↔ HAS_CLIPBOARD env = true ∧ clipboard_fault env = None) ∧
    (ok = true → clipboard w' = Some text ∧ out w' = out w) ∧
    (ok = false →
     clipboard w' = clipboard w ∧
     ∃ message, out w' = out w ++ [Error message; Printed ("Text content: " +:+ text)]).
Proof.
  rewrite safe_clipboard_copy_clipped. eexists _, _. split; [reflexivity|].
  unfold clipped.
  destruct (HAS_CLIPBOARD env); [destruct (clipboard_fault env) as [e|]|]; cbn.
  - split; [done|]. split; [done|]. split; [split; [done | by intros [_ ?]]|].
    split; [done|]. intros _. split; [done|]. by eexists.
  - split; [done|]. split; [done|]. split; [done|]. split; [done|]. done.
  - split; [done|]. split; [done|]. split; [split; [done | by intros [? _]]|].
    split; [done|]. intros _. split; [done|]. by eexists.
Qed.

(** ** parse_command at its edges *)

Lemma lstrip_blank (s : string) : blank s = true → Py.lstrip s = "".
Proof.
  induction s as [|c s IH]; [done|]. simpl. intros [Hc Hs]%andb_true_iff.
  rewrite Hc. by apply IH.
Qed.

Lemma field_word (token : string) : solid token = true → Py.field token = (token, "").
Proof.
  induction token as [|c token IH]; [done|]. simpl.
  intros [Hc Ht]%andb_true_iff. apply negb_true_iff in Hc. by rewrite Hc, (IH Ht).
Qed.

(** [parse_command] answers (None, []) for the empty line, raises
    IndexError for a line that holds only whitespace, and for a single word,
    with or without whitespace after it, answers the lowercased word with an
    empty argument. *)
Theorem parse_command_edges :
  parse_command "" = Return NoAction ∧
  (∀ line, blank line = true → line ≠ "" → parse_command line = Raise IndexError) ∧
  (∀ c token tail,
     solid (String c token) = true → blank tail = true →
     parse_command (String c token +:+ tail) = Return (Action (Py.lower (String c token)) "")).
Proof.
  split; [done|]. split.
  - intros line Hb Hne. unfold parse_command, Py.split_first.
    destruct line as [|c line]; [done|]. cbn [Py.truthy negb]. by rewrite lstrip_blank.
  - intros c token tail Hsolid Hblank. unfold parse_command, Py.split_first.
    pose proof Hsolid as Hc. simpl in Hc. apply andb_true_iff in Hc as [Hc _].
    apply negb_true_iff in Hc.
    rewrite (sapp_cons c). cbn [Py.truthy negb]. rewrite lstrip_solid by done.
    rewrite <- (sapp_cons c).
    destruct tail as [|g gap].
    + rewrite sapp_nil_r, field_word by done. done.
    + simpl in Hblank. apply andb_true_iff in Hblank as [Hg Hgap].
      rewrite field_solid by done.
      rewrite lstrip_blank; [done|]. simpl. by rewrite Hg.
Qed.

(** ** The store as a window on the notes added *)

Lemma keep_last_all {A} (n : nat) (l : list A) : (length l ≤ n)%nat → keep_last n l = l.
Proof. intros H. unfold keep_last. by replace (length l - n)%nat with 0%nat by lia. Qed.

Lemma keep_last_snoc {A} (n : nat) (l : list A) (x : A) :
  (0 < n)%nat → keep_last n (keep_last n l ++ [x]) = keep_last n (l ++ [x]).
Proof.
  intros Hn. unfold keep_last.
  rewrite !length_app, length_drop. simpl.
  rewrite <- (drop_app_le l [x]) by lia. rewrite drop_drop. f_equal. lia.
Qed.

Lemma keep_last_app {A} (n : nat) (l more : list A) :
  (0 < n)%nat → keep_last n (keep_last n l ++ more) = keep_last n (l ++ more).
Proof.
  intros Hn. induction more as [|m more IH] using rev_ind.
  - rewrite !app_nil_r. apply keep_last_all. unfold keep_last. rewrite length_drop. lia.
  - rewrite !(assoc_L (++)).
    rewrite <- (keep_last_snoc n (keep_last n l ++ more)) by done.
    rewrite <- (keep_last_snoc n (l ++ more)) by done.
    by rewrite IH.
Qed.

Lemma handle_add_window env text self w :
  text ≠ "" → 0 < max_notes self → bounded self →
  handle_add env text (self, w) =
  (Return tt,
   added env text (keep_last (Z.to_nat (max_notes self)) (notes self ++ [text])) self
     (evicted self w).2).
Proof.
  intros Ht Hcap Hb. rewrite handle_add_accepted by done. do 3 f_equal.
  rewrite evicted_notes. unfold bounded, size in *.
  destruct (Z.leb_spec (max_notes self) (Z.of_nat (length (notes self)))) as [Hfull|Hroom].
  - destruct (notes self) as [|oldest rest] eqn:Hns; [simpl in *; lia|].
    unfold keep_last. rewrite length_app. simpl in *.
    by replace (S (length rest + 1) - Z.to_nat (max_notes self))%nat with 1%nat by lia.
  - rewrite keep_last_all; [done|]. rewrite length_app. simpl. lia.
Qed.

Lemma history_logged env path text w :
  history_fault env = None →
  fs (logged env path text w) = append_file path (history_line (now env) text) (fs w).
Proof. intros He. unfold logged. by rewrite He. Qed.

(** After any run of adds of non-empty texts on a store within its
    positive bound, every add has returned normally and the store holds the
    most recent [max_notes] of the notes it held and received, in the order
    they came.  When no write failed, the history file has received the line
    of every one of the notes added, evicted or not, in that order. *)
Theorem store_holds_the_latest_notes (adds : list (Env * string)) self w :
  0 < max_notes self → bounded self → Forall (λ a, a.2 ≠ "") adds →
  let r := add_all adds (self, w) in
  r.1 = Return tt ∧
  notes r.2.1 = keep_last (Z.to_nat (max_notes self)) (notes self ++ adds.*2) ∧
  (Forall (λ a, history_fault a.1 = None) adds →
   content (history_file self) r.2.2 = content (history_file self) w +:+ history_lines adds).
Proof.
  intros Hcap Hb Hne. revert self w Hcap Hb.
  induction Hne as [|[env text] adds Ht Hne IH]; intros self w Hcap Hb r.
  - subst r. cbn. rewrite app_nil_r, sapp_nil_r.
    split; [done|]. split; [|done]. rewrite keep_last_all; [done|].
    unfold bounded, size in Hb. lia.
  - subst r. unfold add_all in *. cbn [for_each]. unfold mbind, M_bind.
    rewrite handle_add_window by done.
    set (kept := keep_last (Z.to_nat (max_notes self)) (notes self ++ [text])).
    destruct (added env text kept self (evicted self w).2) as [self1 w1] eqn:Hadded.
    assert (self1 = set_notes kept self) as Hself1 by (unfold added in Hadded; congruence).
    assert (bounded self1) as Hb1.
    { subst self1 kept. unfold bounded, size, keep_last. cbn.
      rewrite length_drop, length_app. simpl. lia. }
    assert (max_notes self1 = max_notes self) as Hm by (by subst self1).
    assert (history_file self1 = history_file self) as Hf by (by subst self1).
    specialize (IH self1 w1 ltac:(lia) Hb1). cbn zeta in IH.
    destruct IH as (Hret & Hnotes & Hhist).
    destruct (for_each adds _ (self1, w1)) as [ret [self2 w2]]. cbn [fst snd] in *.
    split; [by rewrite Hret|]. split.
    + rewrite Hnotes, Hm. subst self1 kept. cbn [notes set_notes fmap list_fmap snd].
      change (text :: adds.*2) with ([text] ++ adds.*2).
      rewrite (assoc_L (++)).
      apply keep_last_app. lia.
    + intros Hfaults. apply Forall_cons in Hfaults as [He Hfaults]. cbn in He.
      rewrite Hf in Hhist. rewrite (Hhist Hfaults).
      assert (content (history_file self) w1 =
              content (history_file self) w +:+ history_line (now env) text) as ->.
      { unfold added in Hadded. injection Hadded as _ <-. unfold content.
        cbn [fs set_out]. rewrite history_logged by done. rewrite evicted_keeps_files.
        unfold append_file. by rewrite lookup_insert_eq. }
      cbn [history_lines]. by rewrite sapp_assoc.
Qed.

Lemma store_holds_the_latest_notes_witness :
  0 < max_notes (pad_of 2 []) ∧ bounded (pad_of 2 []) ∧
  notes (add_all [(calm, "x"); (no_disk, "y"); (calm, "z")] (pad_of 2 [], blank_world)).2.1 =
    ["y"; "z"].
Proof.
  assert (bounded (pad_of 2 [])) as Hb by (unfold bounded, size; simpl; lia).
  split; [done|]. split; [exact Hb|].
  destruct (store_holds_the_latest_notes [(calm, "x"); (no_disk, "y"); (calm, "z")]
              (pad_of 2 []) blank_world) as (_ & Hnotes & _);
    [done | exact Hb | by repeat constructor | exact Hnotes].
Defined.


(** ** Numbers too long for [int] *)

(** A line "copy <arg>" or "delete <arg>" whose argument, trimmed, is a
    string of more than 4300 digits: [int] raises ValueError before the
    store is reached. The exception leaves the command with the state as it
    was, and when such a line is typed after any number of turns that went
    on, [main] ends with status 1. *)
Theorem long_number_ends_the_program env0 envs arg :
  Py.isdigit (Py.strip arg) = true → 4300 < Py.len (Py.strip arg) →
  (∀ env (st : State),
     run_command env ("copy " +:+ arg) st = (Raise ValueError, st) ∧
     run_command env ("delete " +:+ arg) st = (Raise ValueError, st)) ∧
  (∀ w n line rest,
     can_start env0 w →
     turns_go_on envs 0 n (session_start env0 w) = true →
     stdin (after_turns envs 0 n (session_start env0 w)).2 = Line line :: rest →
     Py.strip line = "copy " +:+ arg ∨ Py.strip line = "delete " +:+ arg →
     (main env0 envs w).1 = 1).
Proof.
  intros Hd Hlong.
  pose proof (digits_not_all arg Hd) as Hall.
  assert (∀ env (st : State),
            run_command env ("copy " +:+ arg) st = (Raise ValueError, st) ∧
            run_command env ("delete " +:+ arg) st = (Raise ValueError, st)) as Hcmd.
  { intros env st. rewrite run_command_copy, run_command_delete by done.
    rewrite Hd. unfold mbind at 1 3, M_bind at 1 3.
    by rewrite !bind_lift_result, int_long. }
  split; [exact Hcmd|].
  intros w n line rest Hstart Hgo Hin Hline.
  rewrite (main_status_after env0 envs w n Hstart Hgo).
  destruct (after_turns envs 0 n (session_start env0 w)) as [self w1]. cbn [snd] in Hin.
  unfold run_iteration, redraw.
  change ((_ ← (self0 ← get_self; emit (Screen (notes self0) (max_notes self0)));
           command ← get_user_input; run_command (envs n) command) (self, w1))
    with ((command ← get_user_input; run_command (envs n) command)
            (self, set_out (out w1 ++ [Screen (notes self) (max_notes self)]) w1)).
  destruct (get_user_input_line self
              (set_out (out w1 ++ [Screen (notes self) (max_notes self)]) w1) line rest Hin)
    as (w' & Hget & _).
  unfold mbind, M_bind. rewrite Hget.
  destruct (Hcmd (envs n) (self, w')) as [Hcopy Hdelete].
  by destruct Hline as [-> | ->]; [rewrite Hcopy | rewrite Hdelete].
Qed.

Lemma long_number_ends_the_program_witness :
  Py.isdigit (Py.strip (repeat_str "7" 4301%nat)) = true ∧
  (main calm (λ _, calm)
     (mkWorld ∅ None [Line "add x"; Line ("copy " +:+ repeat_str "7" 4301%nat)] [])).1 = 1.
Proof.
  assert (Py.isdigit (Py.strip (repeat_str "7" 4301%nat)) = true) as Hd by (by vm_compute).
  split; [exact Hd|].
  destruct (long_number_ends_the_program calm (λ _, calm) (repeat_str "7" 4301%nat) Hd)
    as [_ Hmain]; [by vm_compute|].
  apply (Hmain _ 1%nat ("copy " +:+ repeat_str "7" 4301%nat) []).
  - by right.
  - by vm_compute.
  - by vm_compute.
  - left. by vm_compute.
Defined.
